(** * The message tool: capability-gated action catalog, schema and router

    Shallow embedding of [src/agents/tools/message-tool.ts]:
    - [buildMessageActionList]   the action catalog computed from a
      configuration snapshot;
    - [hasTelegramInlineButtons], [buildMessageToolSchemaFromActions],
      [buildMessageToolSchema]  the advertised parameter contract;
    - [execute]                  the dispatch closure of [createMessageTool].

    Helpers imported by the source from modules that are outside this
    development ([./common.js], the per-provider [accounts.js], the outbound
    senders and the per-provider action handlers) are either modelled from the
    specification (marked as such) or taken as parameters. *)

From stdpp Require Import base strings gmap list.
From Stdlib Require Import ZArith Ascii String Permutation.

Local Open Scope string_scope.
Local Open Scope list_scope.

#[local] Set Warnings "-register-all".

(** ** JavaScript strings *)

(** [String.prototype.trim] strips ECMAScript white space and line
    terminators.  Strings are byte strings here, so the ASCII members of that
    class are covered: TAB, LF, VT, FF, CR and SPACE. *)
Definition isWhiteSpace (c : ascii) : bool :=
  let n := N_of_ascii c in
  ((9 <=? n) && (n <=? 13))%N || (n =? 32)%N.

Fixpoint trimStart (s : string) : string :=
  match s with
  | EmptyString => EmptyString
  | String c rest => if isWhiteSpace c then trimStart rest else s
  end.

Fixpoint reverseOnto (s acc : string) : string :=
  match s with
  | EmptyString => acc
  | String c rest => reverseOnto rest (String c acc)
  end.

Definition reverse (s : string) : string := reverseOnto s EmptyString.

Definition trimEnd (s : string) : string := reverse (trimStart (reverse s)).

Definition trim (s : string) : string := trimEnd (trimStart s).

(** [String.prototype.toLowerCase] on the ASCII letters. *)
Definition lowerChar (c : ascii) : ascii :=
  let n := N_of_ascii c in
  if ((65 <=? n) && (n <=? 90))%N then ascii_of_N (n + 32) else c.

Fixpoint toLowerCase (s : string) : string :=
  match s with
  | EmptyString => EmptyString
  | String c rest => String (lowerChar c) (toLowerCase rest)
  end.

(** Truthiness of a string: only the empty string is falsy. *)
Definition nonEmpty (s : string) : bool :=
  match s with EmptyString => false | String _ _ => true end.

(** ** JavaScript values

    The parameter bag is a [Record<string, unknown>]; request objects handed
    to the collaborators are object literals.  Finite numbers are restricted
    to integers. *)
Inductive value : Type :=
| VUndefined
| VNull
| VBool (b : bool)
| VNum (n : Z)
| VStr (s : string)
| VArr (items : list value)
| VObj (fields : list (string * value)).

(** [Boolean(v)]. *)
Definition truthy (v : value) : bool :=
  match v with
  | VUndefined | VNull => false
  | VBool b => b
  | VNum n => negb (n =? 0)%Z
  | VStr s => nonEmpty s
  | VArr _ | VObj _ => true
  end.

(** [typeof v === "boolean" ? v : undefined]. *)
Definition booleanOrUndefined (v : value) : option bool :=
  match v with VBool b => Some b | _ => None end.

(** Property access on the bag: a missing key reads as [undefined]. *)
Definition getProp (params : gmap string value) (key : string) : value :=
  default VUndefined (params !! key).

(** Injections used when an object literal is built from locals. *)
Definition ofString (o : option string) : value :=
  match o with Some s => VStr s | None => VUndefined end.
Definition ofNumber (o : option Z) : value :=
  match o with Some n => VNum n | None => VUndefined end.
Definition ofBool (o : option bool) : value :=
  match o with Some b => VBool b | None => VUndefined end.
Definition ofStrings (o : option (list string)) : value :=
  match o with Some l => VArr (map VStr l) | None => VUndefined end.

(** [x || undefined] on an optional string: the empty string is dropped. *)
Definition orUndefined (o : option string) : option string :=
  match o with
  | Some s => if nonEmpty s then Some s else None
  | None => None
  end.

(** ** Configuration snapshot

    [ClawdbotConfig] is declared in [../../config/config.js]; the sections
    below carry the fields that [message-tool.ts] reads, and the account
    entries that the [listEnabled*Accounts] collaborators resolve. *)

(** [Record<string, boolean | undefined>]: an absent key reads [undefined]. *)
Abbreviation ActionConfig := (gmap string bool).

Module Discord.
Record Account := {
  accountId : string;
  enabled : bool;
  tokenSource : string
}.
Record Config := {
  actions : option ActionConfig;
  accounts : list Account
}.
End Discord.

Module Slack.
Record Account := {
  accountId : string;
  enabled : bool;
  botTokenSource : string;
  actions : option ActionConfig
}.
Record Config := {
  cfgActions : option ActionConfig;
  accounts : list Account
}.
End Slack.

Module Telegram.
(** [capabilities] is [None] when the property is not an array. *)
Record Account := {
  accountId : string;
  enabled : bool;
  tokenSource : string;
  capabilities : option (list string)
}.
Record Config := {
  actions : option ActionConfig;
  cfgCapabilities : option (list string);
  accounts : option (list Account)
}.
End Telegram.

Module WhatsApp.
Record Account := {
  accountId : string;
  enabled : bool
}.
(** [accounts] is part of the snapshot but is not read by the catalog
    builder, which only tests the presence of the section. *)
Record Config := {
  actions : option ActionConfig;
  accounts : list Account
}.
End WhatsApp.

Module MSTeams.
Record Credentials := {
  appId : string;
  appPassword : string;
  tenantId : string
}.
Record Config := {
  enabled : option bool;
  credentials : option Credentials
}.
End MSTeams.

Record ClawdbotConfig := {
  discord : option Discord.Config;
  slack : option Slack.Config;
  telegram : option Telegram.Config;
  whatsapp : option WhatsApp.Config;
  msteams : option MSTeams.Config
}.

(** Modelled from the spec: [createActionGate] of [./common.js] is not part
    of the sources at hand.  Spec, section 3: "a three-valued decision
    function gate(key, defaultValue) -> bool per account: explicit true/false
    overrides the default; absence falls back to defaultValue". *)
Definition createActionGate (actions : option ActionConfig)
    (key : string) (defaultValue : bool) : bool :=
  match actions ≫= (.!! key) with
  | Some explicit => explicit
  | None => defaultValue
  end.

(** Modelled from the spec: [listEnabledDiscordAccounts] of
    [../../discord/accounts.js] is not part of the sources at hand.  Spec,
    sections 4.2 and 6: the accounts of the provider that are enabled. *)
Definition listEnabledDiscordAccounts (cfg : ClawdbotConfig) : list Discord.Account :=
  match discord cfg with
  | Some d => List.filter Discord.enabled (Discord.accounts d)
  | None => []
  end.

(** Modelled from the spec: [listEnabledSlackAccounts] of
    [../../slack/accounts.js], as above. *)
Definition listEnabledSlackAccounts (cfg : ClawdbotConfig) : list Slack.Account :=
  match slack cfg with
  | Some s => List.filter Slack.enabled (Slack.accounts s)
  | None => []
  end.

(** Modelled from the spec: [listEnabledTelegramAccounts] of
    [../../telegram/accounts.js], as above. *)
Definition listEnabledTelegramAccounts (cfg : ClawdbotConfig) : list Telegram.Account :=
  match telegram cfg ≫= Telegram.accounts with
  | Some l => List.filter Telegram.enabled l
  | None => []
  end.

(** Modelled from the spec: [resolveMSTeamsCredentials] of
    [../../msteams/token.js] is not part of the sources at hand.  Spec,
    section 6: "credentialsResolved(config) -> bool"; the section records
    the credentials that resolve, if any. *)
Definition resolveMSTeamsCredentials (m : MSTeams.Config) : option MSTeams.Credentials :=
  MSTeams.credentials m.

(** ** The action catalog *)

Definition AllMessageActions : list string :=
  [ "send"; "poll"; "react"; "reactions"; "read"; "edit"; "delete"; "pin";
    "unpin"; "list-pins"; "permissions"; "thread-create"; "thread-list";
    "thread-reply"; "search"; "sticker"; "member-info"; "role-info";
    "emoji-list"; "emoji-upload"; "sticker-upload"; "role-add"; "role-remove";
    "channel-info"; "channel-list"; "voice-status"; "event-list";
    "event-create"; "timeout"; "kick"; "ban" ].

(** [Array.prototype.includes] on an array of strings. *)
Definition includes (l : list string) (x : string) : bool :=
  existsb (String.eqb x) l.

(** A [Set<string>] is kept as the list of its members in insertion order;
    [Set.prototype.add] leaves the set alone when the member is present. *)
Definition Set_add (x : string) (s : list string) : list string :=
  if includes s x then s else s ++ [x].

(** The body of the [for] loop of [isSlackActionEnabled]: the first account
    whose gate answers [true] ends the loop. *)
Fixpoint slackGateLoop (cfg : ClawdbotConfig) (key : string) (defaultValue : bool)
    (slackAccounts : list Slack.Account) : bool :=
  match slackAccounts with
  | [] => false
  | account :: rest =>
      let gate :=
        createActionGate
          (match Slack.actions account with
           | Some a => Some a
           | None => slack cfg ≫= Slack.cfgActions
           end) in
      if gate key defaultValue then true
      else slackGateLoop cfg key defaultValue rest
  end.

(** [if (c) body;] as a step on the set under construction. *)
Definition when (c : bool) (body : list string → list string)
    (actions : list string) : list string :=
  if c then body actions else actions.

Definition buildMessageActionList (cfg : ClawdbotConfig) : list string :=
  let actions := ["send"] in

  let discordAccounts :=
    List.filter (fun account => negb (Discord.tokenSource account =? "none")%string)
                (listEnabledDiscordAccounts cfg) in
  let discordEnabled := (0 <? List.length discordAccounts)%nat in
  let discordGate := createActionGate (discord cfg ≫= Discord.actions) in

  let slackAccounts :=
    List.filter (fun account => negb (Slack.botTokenSource account =? "none")%string)
                (listEnabledSlackAccounts cfg) in
  let slackEnabled := (0 <? List.length slackAccounts)%nat in
  let isSlackActionEnabled (key : string) (defaultValue : bool) :=
    if negb slackEnabled then false
    else slackGateLoop cfg key defaultValue slackAccounts in

  let telegramAccounts :=
    List.filter (fun account => negb (Telegram.tokenSource account =? "none")%string)
                (listEnabledTelegramAccounts cfg) in
  let telegramEnabled := (0 <? List.length telegramAccounts)%nat in
  let telegramGate := createActionGate (telegram cfg ≫= Telegram.actions) in

  let whatsappGate := createActionGate (whatsapp cfg ≫= WhatsApp.actions) in

  let canDiscordReactions := discordEnabled && discordGate "reactions" true in
  let canSlackReactions := isSlackActionEnabled "reactions" true in
  let canTelegramReactions := telegramEnabled && telegramGate "reactions" true in
  let canWhatsAppReactions :=
    match whatsapp cfg with
    | Some _ => whatsappGate "reactions" true
    | None => false
    end in
  let canAnyReactions :=
    canDiscordReactions || canSlackReactions || canTelegramReactions
    || canWhatsAppReactions in
  let actions :=
    when canAnyReactions (Set_add "react") actions in
  let actions :=
    when (canDiscordReactions || canSlackReactions)
      (Set_add "reactions") actions in

  let canDiscordMessages := discordEnabled && discordGate "messages" true in
  let canSlackMessages := isSlackActionEnabled "messages" true in
  let actions :=
    when (canDiscordMessages || canSlackMessages)
      (fun s => Set_add "delete" (Set_add "edit" (Set_add "read" s))) actions in

  let canDiscordPins := discordEnabled && discordGate "pins" true in
  let canSlackPins := isSlackActionEnabled "pins" true in
  let actions :=
    when (canDiscordPins || canSlackPins)
      (fun s => Set_add "list-pins" (Set_add "unpin" (Set_add "pin" s))) actions in

  let msteamsEnabled :=
    negb (bool_decide (msteams cfg ≫= MSTeams.enabled = Some false))
    && match msteams cfg with
       | Some m => bool_decide (is_Some (resolveMSTeamsCredentials m))
       | None => false
       end in
  let canDiscordPolls := discordEnabled && discordGate "polls" true in
  let canWhatsAppPolls :=
    match whatsapp cfg with
    | Some _ => whatsappGate "polls" true
    | None => false
    end in
  let actions :=
    when (canDiscordPolls || canWhatsAppPolls || msteamsEnabled)
      (Set_add "poll") actions in
  let actions :=
    when (discordEnabled && discordGate "permissions" true)
      (Set_add "permissions") actions in
  let actions :=
    when (discordEnabled && discordGate "threads" true)
      (fun s => Set_add "thread-reply"
                  (Set_add "thread-list" (Set_add "thread-create" s))) actions in
  let actions :=
    when (discordEnabled && discordGate "search" true)
      (Set_add "search") actions in
  let actions :=
    when (discordEnabled && discordGate "stickers" true)
      (Set_add "sticker") actions in
  let actions :=
    when ((discordEnabled && discordGate "memberInfo" true)
          || isSlackActionEnabled "memberInfo" true)
      (Set_add "member-info") actions in
  let actions :=
    when (discordEnabled && discordGate "roleInfo" true)
      (Set_add "role-info") actions in
  let actions :=
    when ((discordEnabled && discordGate "reactions" true)
          || isSlackActionEnabled "emojiList" true)
      (Set_add "emoji-list") actions in
  let actions :=
    when (discordEnabled && discordGate "emojiUploads" true)
      (Set_add "emoji-upload") actions in
  let actions :=
    when (discordEnabled && discordGate "stickerUploads" true)
      (Set_add "sticker-upload") actions in

  let canDiscordRoles := discordEnabled && discordGate "roles" false in
  let actions :=
    when canDiscordRoles
      (fun s => Set_add "role-remove" (Set_add "role-add" s)) actions in

  let actions :=
    when (discordEnabled && discordGate "channelInfo" true)
      (fun s => Set_add "channel-list" (Set_add "channel-info" s)) actions in
  let actions :=
    when (discordEnabled && discordGate "voiceStatus" true)
      (Set_add "voice-status") actions in
  let actions :=
    when (discordEnabled && discordGate "events" true)
      (fun s => Set_add "event-create" (Set_add "event-list" s)) actions in
  let actions :=
    when (discordEnabled && discordGate "moderation" false)
      (fun s => Set_add "ban" (Set_add "kick" (Set_add "timeout" s))) actions in

  actions.

(** ** The advertised parameter contract *)

(** The fragment of TypeBox that the tool uses. *)
Inductive TSchema : Type :=
| TString
| TNumber
| TBoolean
| TLiteral (lit : string)
| TOptional (inner : TSchema)
| TArray (item : TSchema)
| TObject (props : list (string * TSchema))
| TUnion (alternatives : list TSchema).

Definition MessageToolCommonSchema : list (string * TSchema) :=
  [ ("provider", TOptional TString);
    ("media", TOptional TString);
    ("buttons",
      TOptional
        (TArray
           (TArray
              (TObject [("text", TString); ("callback_data", TString)]))));
    ("messageId", TOptional TString);
    ("replyTo", TOptional TString);
    ("threadId", TOptional TString);
    ("accountId", TOptional TString);
    ("dryRun", TOptional TBoolean);
    ("bestEffort", TOptional TBoolean);
    ("gifPlayback", TOptional TBoolean);
    ("emoji", TOptional TString);
    ("remove", TOptional TBoolean);
    ("limit", TOptional TNumber);
    ("before", TOptional TString);
    ("after", TOptional TString);
    ("around", TOptional TString);
    ("pollQuestion", TOptional TString);
    ("pollOption", TOptional (TArray TString));
    ("pollDurationHours", TOptional TNumber);
    ("pollMulti", TOptional TBoolean);
    ("channelId", TOptional TString);
    ("channelIds", TOptional (TArray TString));
    ("guildId", TOptional TString);
    ("userId", TOptional TString);
    ("authorId", TOptional TString);
    ("authorIds", TOptional (TArray TString));
    ("roleId", TOptional TString);
    ("roleIds", TOptional (TArray TString));
    ("emojiName", TOptional TString);
    ("stickerId", TOptional (TArray TString));
    ("stickerName", TOptional TString);
    ("stickerDesc", TOptional TString);
    ("stickerTags", TOptional TString);
    ("threadName", TOptional TString);
    ("autoArchiveMin", TOptional TNumber);
    ("query", TOptional TString);
    ("eventName", TOptional TString);
    ("eventType", TOptional TString);
    ("startTime", TOptional TString);
    ("endTime", TOptional TString);
    ("desc", TOptional TString);
    ("location", TOptional TString);
    ("durationMin", TOptional TNumber);
    ("until", TOptional TString);
    ("reason", TOptional TString);
    ("deleteDays", TOptional TNumber);
    ("includeArchived", TOptional TBoolean);
    ("participant", TOptional TString);
    ("fromMe", TOptional TBoolean);
    ("gatewayUrl", TOptional TString);
    ("gatewayToken", TOptional TString);
    ("timeoutMs", TOptional TNumber) ].

(** [delete props[key]]. *)
Definition deleteProp (key : string) (props : list (string * TSchema)) :
    list (string * TSchema) :=
  List.filter (fun p => negb (fst p =? key)%string) props.

(** The spread [...props] follows the three leading properties, none of
    which is a key of [props], so the literal is their concatenation. *)
Definition buildMessageToolSchemaFromActions (actions : list string)
    (includeButtons : bool) : TSchema :=
  let props := MessageToolCommonSchema in
  let props := if negb includeButtons then deleteProp "buttons" props else props in

  let schemas : list TSchema := [] in
  let schemas :=
    if includes actions "send"
    then schemas ++
         [TObject (("action", TLiteral "send") :: ("to", TString)
                   :: ("message", TString) :: props)]
    else schemas in

  let nonSendActions :=
    List.filter (fun action => negb (action =? "send")%string) actions in
  let schemas :=
    if (0 <? List.length nonSendActions)%nat
    then schemas ++
         [TObject (("action", TUnion (map TLiteral nonSendActions))
                   :: ("to", TOptional TString)
                   :: ("message", TOptional TString) :: props)]
    else schemas in

  match schemas with
  | [only] => only
  | _ => TUnion schemas
  end.

Definition MessageToolSchema : TSchema :=
  buildMessageToolSchemaFromActions AllMessageActions true.

(** The first loop of [hasTelegramInlineButtons], and the inner loop of the
    second: every entry is trimmed and, when not empty, added in lower
    case. *)
Fixpoint addCapabilities (entries : list string) (caps : list string) : list string :=
  match entries with
  | [] => caps
  | entry :: rest =>
      let trimmed := trim entry in
      addCapabilities rest
        (if nonEmpty trimmed then Set_add (toLowerCase trimmed) caps else caps)
  end.

(** The loop over [Object.values(accounts)]: an account whose
    [capabilities] is not an array is skipped. *)
Fixpoint addAccountCapabilities (accounts : list Telegram.Account)
    (caps : list string) : list string :=
  match accounts with
  | [] => caps
  | account :: rest =>
      match Telegram.capabilities account with
      | None => addAccountCapabilities rest caps
      | Some accountCaps =>
          addAccountCapabilities rest (addCapabilities accountCaps caps)
      end
  end.

Definition hasTelegramInlineButtons (cfg : ClawdbotConfig) : bool :=
  let caps : list string := [] in
  let caps :=
    addCapabilities (default [] (telegram cfg ≫= Telegram.cfgCapabilities)) caps in
  let accounts := telegram cfg ≫= Telegram.accounts in
  let caps :=
    match accounts with
    | Some l => addAccountCapabilities l caps
    | None => caps
    end in
  includes caps "inlinebuttons".

Definition buildMessageToolSchema (cfg : ClawdbotConfig) : TSchema :=
  let actions := buildMessageActionList cfg in
  let telegramEnabled :=
    existsb (fun account => negb (Telegram.tokenSource account =? "none")%string)
            (listEnabledTelegramAccounts cfg) in
  let includeButtons := telegramEnabled && hasTelegramInlineButtons cfg in
  buildMessageToolSchemaFromActions actions includeButtons.

(** Whether an object schema declares property [field]. *)
Definition objectHasField (field : string) (schema : TSchema) : bool :=
  match schema with
  | TObject props => existsb (fun p => (fst p =? field)%string) props
  | _ => false
  end.

(** Whether the contract (one object, or a union of objects) declares
    [field] in any of its shapes. *)
Definition schemaAdvertises (field : string) (schema : TSchema) : bool :=
  match schema with
  | TUnion alternatives => existsb (objectHasField field) alternatives
  | _ => objectHasField field schema
  end.

(** ** The router: collaborators, failures and the trace of a call *)

(** The failures a call can end with.  The local failures are plain [Error]
    objects in the source and carry the message built there. *)
Inductive Error : Type :=
| MissingRequiredParameter (key : string)
| InvalidParameterType (key : string)
| UnknownAction (message : string)
| UnsupportedActionForProvider (message : string)
| ProviderResolutionFailure (reason : string)
| DownstreamProviderError (cause : value).

Record StringParamOptions := {
  required : bool;
  trimmed : bool;
  allowEmpty : bool
}.

(** [{}], with [trim] at its default. *)
Definition optional : StringParamOptions :=
  {| required := false; trimmed := true; allowEmpty := false |}.
Definition requiredParam : StringParamOptions :=
  {| required := true; trimmed := true; allowEmpty := false |}.
Definition requiredAllowEmpty : StringParamOptions :=
  {| required := true; trimmed := true; allowEmpty := true |}.
Definition allowEmptyParam : StringParamOptions :=
  {| required := false; trimmed := true; allowEmpty := true |}.
Definition untrimmed : StringParamOptions :=
  {| required := false; trimmed := false; allowEmpty := false |}.
Definition requiredUntrimmed : StringParamOptions :=
  {| required := true; trimmed := false; allowEmpty := false |}.

Record NumberParamOptions := { integer : bool }.

Record StringArrayParamOptions := {
  requiredArray : bool;
  label : option string
}.

Record Gateway := {
  url : option string;
  token : option string;
  timeoutMs : option Z;
  clientName : string;
  mode : string
}.

Module MessageSend.
Record Params := {
  to : option string;
  content : option string;
  mediaUrl : option string;
  provider : option string;
  accountId : option string;
  gifPlayback : bool;
  dryRun : bool;
  bestEffort : option bool;
  gateway : Gateway
}.
End MessageSend.

Module MessagePoll.
Record Params := {
  to : option string;
  question : option string;
  options : list string;
  maxSelections : nat;
  durationHours : option Z;
  provider : string;
  dryRun : bool;
  gateway : Gateway
}.
End MessagePoll.

Inductive ReplyToMode := ReplyOff | ReplyFirst | ReplyAll.

(** The third argument of [handleSlackAction]; [hasRepliedRef] is the
    content of the caller's cell at the time of the call. *)
Record SlackContext := {
  ctxCurrentChannelId : option string;
  ctxCurrentThreadTs : option string;
  ctxReplyToMode : option ReplyToMode;
  ctxHasRepliedRef : option bool
}.

Record MessageToolOptions := {
  agentAccountId : option string;
  config : option ClawdbotConfig;
  currentChannelId : option string;
  currentThreadTs : option string;
  replyToMode : option ReplyToMode;
  hasRepliedRef : option bool
}.

Record ProviderSelection := { provider : string }.

(** What the tool imports and does not define: the Parameter Extractor of
    [./common.js], provider resolution, the provider-agnostic senders and
    the provider-specific handlers.  A collaborator that rejects answers
    [inl]. *)
Class Collaborators := {
  loadConfig : ClawdbotConfig;
  normalizeAccountId : string → string;
  jsonResult : value → value;
  readStringParam :
    gmap string value → string → StringParamOptions → Error + option string;
  readNumberParam :
    gmap string value → string → NumberParamOptions → Error + option Z;
  readStringArrayParam :
    gmap string value → string → StringArrayParamOptions →
    Error + option (list string);
  resolveMessageProviderSelection :
    ClawdbotConfig → option string → Error + ProviderSelection;
  sendMessage : MessageSend.Params → Error + value;
  sendPoll : MessagePoll.Params → Error + value;
  handleDiscordAction : value → ClawdbotConfig → Error + value;
  handleSlackAction : value → ClawdbotConfig → option SlackContext → Error + value;
  handleTelegramAction : value → ClawdbotConfig → Error + value;
  handleWhatsAppAction : value → ClawdbotConfig → Error + value
}.

Inductive Extractor := StringParam | NumberParam | StringArrayParam.

(** What a call does that an observer (a mocked collaborator) sees, in the
    order it happens. *)
Inductive Event : Type :=
| Extract (extractor : Extractor) (key : string)
| ResolveProvider (provider : option string)
| SendMessage (args : MessageSend.Params)
| SendPoll (args : MessagePoll.Params)
| DiscordAction (request : value)
| SlackAction (request : value) (context : option SlackContext)
| TelegramAction (request : value)
| WhatsAppAction (request : value).

(** A computation logs its events and ends with a failure or a result. *)
Definition M (A : Type) : Type := list Event * (Error + A).

Definition ret {A} (a : A) : M A := ([], inr a).

Definition throw {A} (e : Error) : M A := ([], inl e).

Definition bind {A B} (m : M A) (k : A → M B) : M B :=
  match m with
  | (t, inl e) => (t, inl e)
  | (t, inr a) => let (t', r) := k a in (t ++ t', r)
  end.

Notation "x <- m ;; k" := (bind m (fun x => k))
  (at level 100, m at next level, right associativity).

(** One observable step: the event, then what the collaborator answered. *)
Definition call {A} (e : Event) (answer : Error + A) : M A := ([e], answer).

Definition trace {A} (m : M A) : list Event := fst m.
Definition outcome {A} (m : M A) : Error + A := snd m.

Definition isProviderHandler (e : Event) : bool :=
  match e with
  | DiscordAction _ | SlackAction _ _ | TelegramAction _ | WhatsAppAction _ => true
  | _ => false
  end.

Definition isGenericSend (e : Event) : bool :=
  match e with
  | SendMessage _ | SendPoll _ => true
  | _ => false
  end.

Definition isExtraction (e : Event) : bool :=
  match e with
  | Extract _ _ => true
  | _ => false
  end.

(** The calls to senders and handlers, in order. *)
Definition dispatches (t : list Event) : list Event :=
  List.filter (fun e => isProviderHandler e || isGenericSend e) t.

(** [action === name]. *)
Definition actionIs (action : option string) (name : string) : bool :=
  match action with
  | Some a => (a =? name)%string
  | None => false
  end.

(** The text a template literal gives for a possibly undefined string. *)
Definition templateText (o : option string) : string := default "undefined" o.

(** [resolveAgentAccountId]. *)
Definition resolveAgentAccountId `{Collaborators} (v : option string) : option string :=
  match trim <$> v with
  | Some t => if nonEmpty t then Some (normalizeAccountId t) else None
  | None => None
  end.

(** The locals of [execute] that every action branch sees. *)
Record Locals := {
  params : gmap string value;
  cfg : ClawdbotConfig;
  action : option string;
  resolvedProvider : string;
  accountId : option string;
  gateway : Gateway;
  dryRun : bool
}.

(** ** [createMessageTool]: the [execute] closure *)

Section Execute.
Context `{Collaborators}.
Variable options : option MessageToolOptions.

(** [readStringParam(params, key, opts)] and its siblings, observed. *)
Definition readString (params : gmap string value) (key : string)
    (opts : StringParamOptions) : M (option string) :=
  call (Extract StringParam key) (readStringParam params key opts).

Definition readNumber (params : gmap string value) (key : string)
    (opts : NumberParamOptions) : M (option Z) :=
  call (Extract NumberParam key) (readNumberParam params key opts).

Definition readStringArray (params : gmap string value) (key : string)
    (opts : StringArrayParamOptions) : M (option (list string)) :=
  call (Extract StringArrayParam key) (readStringArrayParam params key opts).

Definition discordAction (L : Locals) (request : list (string * value)) : M value :=
  call (DiscordAction (VObj request)) (handleDiscordAction (VObj request) (cfg L)).

Definition slackAction (L : Locals) (request : list (string * value))
    (context : option SlackContext) : M value :=
  call (SlackAction (VObj request) context)
       (handleSlackAction (VObj request) (cfg L) context).

Definition telegramAction (L : Locals) (request : list (string * value)) : M value :=
  call (TelegramAction (VObj request)) (handleTelegramAction (VObj request) (cfg L)).

Definition whatsAppAction (L : Locals) (request : list (string * value)) : M value :=
  call (WhatsAppAction (VObj request)) (handleWhatsAppAction (VObj request) (cfg L)).

(** [provider === name]. *)
Definition providerIs (L : Locals) (name : string) : bool :=
  (resolvedProvider L =? name)%string.

(** [resolveChannelId] and [resolveChatId] (same body):
    [readStringParam(params, label) ?? readStringParam(params, "to", { required: true })]. *)
Definition resolveChannelId (L : Locals) (label : string) : M (option string) :=
  v <- readString (params L) label optional ;;
  match v with
  | Some _ => ret v
  | None => readString (params L) "to" requiredParam
  end.

Definition resolveChatId (L : Locals) (label : string) : M (option string) :=
  v <- readString (params L) label optional ;;
  match v with
  | Some _ => ret v
  | None => readString (params L) "to" requiredParam
  end.

(** [allowMultiselect ? Math.max(2, options.length) : 1]. *)
Definition maxSelectionsFor (allowMultiselect : option bool) (pollOptions : list string) : nat :=
  match allowMultiselect with
  | Some true => Nat.max 2 (List.length pollOptions)
  | _ => 1
  end.

(** [action === "send"]. *)
Definition sendBranch (L : Locals) : M value :=
  to <- readString (params L) "to" requiredParam ;;
  message <- readString (params L) "message" requiredAllowEmpty ;;
  mediaUrl <- readString (params L) "media" untrimmed ;;
  replyTo <- readString (params L) "replyTo" optional ;;
  threadId <- readString (params L) "threadId" optional ;;
  let buttons := getProp (params L) "buttons" in
  let gifPlayback :=
    match getProp (params L) "gifPlayback" with VBool b => b | _ => false end in
  let bestEffort := booleanOrUndefined (getProp (params L) "bestEffort") in
  let generic : MessageSend.Params :=
    {| MessageSend.to := to;
       MessageSend.content := message;
       MessageSend.mediaUrl := orUndefined mediaUrl;
       MessageSend.provider := orUndefined (Some (resolvedProvider L));
       MessageSend.accountId := accountId L;
       MessageSend.gifPlayback := gifPlayback;
       MessageSend.dryRun := dryRun L;
       MessageSend.bestEffort := bestEffort;
       MessageSend.gateway := gateway L |} in
  if dryRun L then
    result <- call (SendMessage generic) (sendMessage generic) ;;
    ret (jsonResult result)
  else if providerIs L "discord" then
    discordAction L
      [ ("action", VStr "sendMessage"); ("to", ofString to);
        ("content", ofString message); ("mediaUrl", ofString mediaUrl);
        ("replyTo", ofString replyTo) ]
  else if providerIs L "slack" then
    slackAction L
      [ ("action", VStr "sendMessage"); ("to", ofString to);
        ("content", ofString message); ("mediaUrl", ofString mediaUrl);
        ("accountId", ofString (accountId L));
        ("threadTs",
          ofString (match threadId with Some _ => threadId | None => replyTo end)) ]
      (Some {| ctxCurrentChannelId := options ≫= currentChannelId;
               ctxCurrentThreadTs := options ≫= currentThreadTs;
               ctxReplyToMode := options ≫= replyToMode;
               ctxHasRepliedRef := options ≫= hasRepliedRef |})
  else if providerIs L "telegram" then
    telegramAction L
      [ ("action", VStr "sendMessage"); ("to", ofString to);
        ("content", ofString message); ("mediaUrl", ofString mediaUrl);
        ("replyToMessageId", ofString replyTo);
        ("messageThreadId", ofString threadId);
        ("accountId", ofString (accountId L)); ("buttons", buttons) ]
  else
    result <- call (SendMessage generic) (sendMessage generic) ;;
    ret (jsonResult result).

(** [action === "poll"]. *)
Definition pollBranch (L : Locals) : M value :=
  to <- readString (params L) "to" requiredParam ;;
  question <- readString (params L) "pollQuestion" requiredParam ;;
  pollOptions <- readStringArray (params L) "pollOption"
                   {| requiredArray := true; label := None |} ;;
  let pollOptions := default [] pollOptions in
  let allowMultiselect := booleanOrUndefined (getProp (params L) "pollMulti") in
  durationHours <- readNumber (params L) "pollDurationHours" {| integer := true |} ;;
  let generic : MessagePoll.Params :=
    {| MessagePoll.to := to;
       MessagePoll.question := question;
       MessagePoll.options := pollOptions;
       MessagePoll.maxSelections := maxSelectionsFor allowMultiselect pollOptions;
       MessagePoll.durationHours := durationHours;
       MessagePoll.provider := resolvedProvider L;
       MessagePoll.dryRun := dryRun L;
       MessagePoll.gateway := gateway L |} in
  if dryRun L then
    result <- call (SendPoll generic) (sendPoll generic) ;;
    ret (jsonResult result)
  else if providerIs L "discord" then
    content <- readString (params L) "message" optional ;;
    discordAction L
      [ ("action", VStr "poll"); ("to", ofString to);
        ("question", ofString question);
        ("answers", VArr (map VStr pollOptions));
        ("allowMultiselect", ofBool allowMultiselect);
        ("durationHours", ofNumber durationHours);
        ("content", ofString content) ]
  else
    result <- call (SendPoll generic) (sendPoll generic) ;;
    ret (jsonResult result).

(** [action === "react"]. *)
Definition reactBranch (L : Locals) : M value :=
  messageId <- readString (params L) "messageId" requiredParam ;;
  emoji <- readString (params L) "emoji" allowEmptyParam ;;
  let remove := booleanOrUndefined (getProp (params L) "remove") in
  if providerIs L "discord" then
    channelId <- resolveChannelId L "channelId" ;;
    discordAction L
      [ ("action", VStr "react"); ("channelId", ofString channelId);
        ("messageId", ofString messageId); ("emoji", ofString emoji);
        ("remove", ofBool remove) ]
  else if providerIs L "slack" then
    channelId <- resolveChannelId L "channelId" ;;
    slackAction L
      [ ("action", VStr "react"); ("channelId", ofString channelId);
        ("messageId", ofString messageId); ("emoji", ofString emoji);
        ("remove", ofBool remove); ("accountId", ofString (accountId L)) ]
      None
  else if providerIs L "telegram" then
    chatId <- resolveChatId L "chatId" ;;
    telegramAction L
      [ ("action", VStr "react"); ("chatId", ofString chatId);
        ("messageId", ofString messageId); ("emoji", ofString emoji);
        ("remove", ofBool remove); ("accountId", ofString (accountId L)) ]
  else if providerIs L "whatsapp" then
    chatJid <- resolveChatId L "chatJid" ;;
    participant <- readString (params L) "participant" optional ;;
    whatsAppAction L
      [ ("action", VStr "react"); ("chatJid", ofString chatJid);
        ("messageId", ofString messageId); ("emoji", ofString emoji);
        ("remove", ofBool remove); ("participant", ofString participant);
        ("accountId", ofString (accountId L));
        ("fromMe", ofBool (booleanOrUndefined (getProp (params L) "fromMe"))) ]
  else
    throw (UnsupportedActionForProvider
             ("React is not supported for provider " +:+ resolvedProvider L +:+ ".")).

(** [action === "reactions"]. *)
Definition reactionsBranch (L : Locals) : M value :=
  messageId <- readString (params L) "messageId" requiredParam ;;
  limit <- readNumber (params L) "limit" {| integer := true |} ;;
  if providerIs L "discord" then
    channelId <- resolveChannelId L "channelId" ;;
    discordAction L
      [ ("action", VStr "reactions"); ("channelId", ofString channelId);
        ("messageId", ofString messageId); ("limit", ofNumber limit) ]
  else if providerIs L "slack" then
    channelId <- resolveChannelId L "channelId" ;;
    slackAction L
      [ ("action", VStr "reactions"); ("channelId", ofString channelId);
        ("messageId", ofString messageId); ("limit", ofNumber limit);
        ("accountId", ofString (accountId L)) ]
      None
  else
    throw (UnsupportedActionForProvider
             ("Reactions are not supported for provider " +:+ resolvedProvider L +:+ ".")).

(** [action === "read"]. *)
Definition readBranch (L : Locals) : M value :=
  limit <- readNumber (params L) "limit" {| integer := true |} ;;
  before <- readString (params L) "before" optional ;;
  after <- readString (params L) "after" optional ;;
  around <- readString (params L) "around" optional ;;
  if providerIs L "discord" then
    channelId <- resolveChannelId L "channelId" ;;
    discordAction L
      [ ("action", VStr "readMessages"); ("channelId", ofString channelId);
        ("limit", ofNumber limit); ("before", ofString before);
        ("after", ofString after); ("around", ofString around) ]
  else if providerIs L "slack" then
    channelId <- resolveChannelId L "channelId" ;;
    slackAction L
      [ ("action", VStr "readMessages"); ("channelId", ofString channelId);
        ("limit", ofNumber limit); ("before", ofString before);
        ("after", ofString after); ("accountId", ofString (accountId L)) ]
      None
  else
    throw (UnsupportedActionForProvider
             ("Read is not supported for provider " +:+ resolvedProvider L +:+ ".")).

(** [action === "edit"]. *)
Definition editBranch (L : Locals) : M value :=
  messageId <- readString (params L) "messageId" requiredParam ;;
  message <- readString (params L) "message" requiredParam ;;
  if providerIs L "discord" then
    channelId <- resolveChannelId L "channelId" ;;
    discordAction L
      [ ("action", VStr "editMessage"); ("channelId", ofString channelId);
        ("messageId", ofString messageId); ("content", ofString message) ]
  else if providerIs L "slack" then
    channelId <- resolveChannelId L "channelId" ;;
    slackAction L
      [ ("action", VStr "editMessage"); ("channelId", ofString channelId);
        ("messageId", ofString messageId); ("content", ofString message);
        ("accountId", ofString (accountId L)) ]
      None
  else
    throw (UnsupportedActionForProvider
             ("Edit is not supported for provider " +:+ resolvedProvider L +:+ ".")).

(** [action === "delete"]. *)
Definition deleteBranch (L : Locals) : M value :=
  messageId <- readString (params L) "messageId" requiredParam ;;
  if providerIs L "discord" then
    channelId <- resolveChannelId L "channelId" ;;
    discordAction L
      [ ("action", VStr "deleteMessage"); ("channelId", ofString channelId);
        ("messageId", ofString messageId) ]
  else if providerIs L "slack" then
    channelId <- resolveChannelId L "channelId" ;;
    slackAction L
      [ ("action", VStr "deleteMessage"); ("channelId", ofString channelId);
        ("messageId", ofString messageId);
        ("accountId", ofString (accountId L)) ]
      None
  else
    throw (UnsupportedActionForProvider
             ("Delete is not supported for provider " +:+ resolvedProvider L +:+ ".")).

(** [action === "pin" || action === "unpin" || action === "list-pins"]. *)
Definition pinsBranch (L : Locals) : M value :=
  messageId <-
    (if actionIs (action L) "list-pins" then ret None
     else readString (params L) "messageId" requiredParam) ;;
  channelId <- resolveChannelId L "channelId" ;;
  let providerAction :=
    if actionIs (action L) "pin" then "pinMessage"
    else if actionIs (action L) "unpin" then "unpinMessage"
    else "listPins" in
  if providerIs L "discord" then
    discordAction L
      [ ("action", VStr providerAction); ("channelId", ofString channelId);
        ("messageId", ofString messageId) ]
  else if providerIs L "slack" then
    slackAction L
      [ ("action", VStr providerAction); ("channelId", ofString channelId);
        ("messageId", ofString messageId);
        ("accountId", ofString (accountId L)) ]
      None
  else
    throw (UnsupportedActionForProvider
             ("Pins are not supported for provider " +:+ resolvedProvider L +:+ ".")).

(** The failure raised by the guard [if (provider !== "discord") throw ...]
    that opens the Discord-only branches; [subject] is the head of the
    message, up to and including its verb. *)
Definition onlyDiscord (L : Locals) (subject : string) : Error :=
  UnsupportedActionForProvider
    (subject +:+ " only supported for Discord (provider=" +:+ resolvedProvider L +:+ ").").

(** [action === "permissions"]. *)
Definition permissionsBranch (L : Locals) : M value :=
  if negb (providerIs L "discord") then throw (onlyDiscord L "Permissions are")
  else
    channelId <- resolveChannelId L "channelId" ;;
    discordAction L
      [ ("action", VStr "permissions"); ("channelId", ofString channelId) ].

(** [action === "thread-create"]. *)
Definition threadCreateBranch (L : Locals) : M value :=
  if negb (providerIs L "discord") then throw (onlyDiscord L "Thread create is")
  else
    name <- readString (params L) "threadName" requiredParam ;;
    messageId <- readString (params L) "messageId" optional ;;
    autoArchiveMinutes <- readNumber (params L) "autoArchiveMin" {| integer := true |} ;;
    channelId <- resolveChannelId L "channelId" ;;
    discordAction L
      [ ("action", VStr "threadCreate"); ("channelId", ofString channelId);
        ("name", ofString name); ("messageId", ofString messageId);
        ("autoArchiveMinutes", ofNumber autoArchiveMinutes) ].

(** [action === "thread-list"]. *)
Definition threadListBranch (L : Locals) : M value :=
  if negb (providerIs L "discord") then throw (onlyDiscord L "Thread list is")
  else
    guildId <- readString (params L) "guildId" requiredParam ;;
    channelId <- readString (params L) "channelId" optional ;;
    let includeArchived := booleanOrUndefined (getProp (params L) "includeArchived") in
    before <- readString (params L) "before" optional ;;
    limit <- readNumber (params L) "limit" {| integer := true |} ;;
    discordAction L
      [ ("action", VStr "threadList"); ("guildId", ofString guildId);
        ("channelId", ofString channelId);
        ("includeArchived", ofBool includeArchived);
        ("before", ofString before); ("limit", ofNumber limit) ].

(** [action === "thread-reply"]. *)
Definition threadReplyBranch (L : Locals) : M value :=
  if negb (providerIs L "discord") then throw (onlyDiscord L "Thread reply is")
  else
    content <- readString (params L) "message" requiredParam ;;
    mediaUrl <- readString (params L) "media" untrimmed ;;
    replyTo <- readString (params L) "replyTo" optional ;;
    channelId <- resolveChannelId L "channelId" ;;
    discordAction L
      [ ("action", VStr "threadReply"); ("channelId", ofString channelId);
        ("content", ofString content); ("mediaUrl", ofString mediaUrl);
        ("replyTo", ofString replyTo) ].

(** [action === "search"]. *)
Definition searchBranch (L : Locals) : M value :=
  if negb (providerIs L "discord") then throw (onlyDiscord L "Search is")
  else
    guildId <- readString (params L) "guildId" requiredParam ;;
    query <- readString (params L) "query" requiredParam ;;
    channelId <- readString (params L) "channelId" optional ;;
    channelIds <- readStringArray (params L) "channelIds"
                    {| requiredArray := false; label := None |} ;;
    authorId <- readString (params L) "authorId" optional ;;
    authorIds <- readStringArray (params L) "authorIds"
                   {| requiredArray := false; label := None |} ;;
    limit <- readNumber (params L) "limit" {| integer := true |} ;;
    discordAction L
      [ ("action", VStr "searchMessages"); ("guildId", ofString guildId);
        ("content", ofString query); ("channelId", ofString channelId);
        ("channelIds", ofStrings channelIds); ("authorId", ofString authorId);
        ("authorIds", ofStrings authorIds); ("limit", ofNumber limit) ].

(** [action === "sticker"]. *)
Definition stickerBranch (L : Locals) : M value :=
  if negb (providerIs L "discord") then throw (onlyDiscord L "Sticker send is")
  else
    stickerIds <- readStringArray (params L) "stickerId"
                    {| requiredArray := true; label := Some "sticker-id" |} ;;
    let stickerIds := default [] stickerIds in
    content <- readString (params L) "message" optional ;;
    to <- readString (params L) "to" requiredParam ;;
    discordAction L
      [ ("action", VStr "sticker"); ("to", ofString to);
        ("stickerIds", VArr (map VStr stickerIds));
        ("content", ofString content) ].

(** [action === "member-info"]. *)
Definition memberInfoBranch (L : Locals) : M value :=
  userId <- readString (params L) "userId" requiredParam ;;
  if providerIs L "discord" then
    guildId <- readString (params L) "guildId" requiredParam ;;
    discordAction L
      [ ("action", VStr "memberInfo"); ("guildId", ofString guildId);
        ("userId", ofString userId) ]
  else if providerIs L "slack" then
    slackAction L
      [ ("action", VStr "memberInfo"); ("userId", ofString userId);
        ("accountId", ofString (accountId L)) ]
      None
  else
    throw (UnsupportedActionForProvider
             ("Member info is not supported for provider " +:+ resolvedProvider L +:+ ".")).

(** [action === "role-info"]. *)
Definition roleInfoBranch (L : Locals) : M value :=
  if negb (providerIs L "discord") then throw (onlyDiscord L "Role info is")
  else
    guildId <- readString (params L) "guildId" requiredParam ;;
    discordAction L [ ("action", VStr "roleInfo"); ("guildId", ofString guildId) ].

(** [action === "emoji-list"]. *)
Definition emojiListBranch (L : Locals) : M value :=
  if providerIs L "discord" then
    guildId <- readString (params L) "guildId" requiredParam ;;
    discordAction L [ ("action", VStr "emojiList"); ("guildId", ofString guildId) ]
  else if providerIs L "slack" then
    slackAction L
      [ ("action", VStr "emojiList"); ("accountId", ofString (accountId L)) ]
      None
  else
    throw (UnsupportedActionForProvider
             ("Emoji list is not supported for provider " +:+ resolvedProvider L +:+ ".")).

(** [action === "emoji-upload"]. *)
Definition emojiUploadBranch (L : Locals) : M value :=
  if negb (providerIs L "discord") then throw (onlyDiscord L "Emoji upload is")
  else
    guildId <- readString (params L) "guildId" requiredParam ;;
    name <- readString (params L) "emojiName" requiredParam ;;
    mediaUrl <- readString (params L) "media" requiredUntrimmed ;;
    roleIds <- readStringArray (params L) "roleIds"
                 {| requiredArray := false; label := None |} ;;
    discordAction L
      [ ("action", VStr "emojiUpload"); ("guildId", ofString guildId);
        ("name", ofString name); ("mediaUrl", ofString mediaUrl);
        ("roleIds", ofStrings roleIds) ].

(** [action === "sticker-upload"]. *)
Definition stickerUploadBranch (L : Locals) : M value :=
  if negb (providerIs L "discord") then throw (onlyDiscord L "Sticker upload is")
  else
    guildId <- readString (params L) "guildId" requiredParam ;;
    name <- readString (params L) "stickerName" requiredParam ;;
    description <- readString (params L) "stickerDesc" requiredParam ;;
    tags <- readString (params L) "stickerTags" requiredParam ;;
    mediaUrl <- readString (params L) "media" requiredUntrimmed ;;
    discordAction L
      [ ("action", VStr "stickerUpload"); ("guildId", ofString guildId);
        ("name", ofString name); ("description", ofString description);
        ("tags", ofString tags); ("mediaUrl", ofString mediaUrl) ].

(** [action === "role-add" || action === "role-remove"]. *)
Definition roleChangeBranch (L : Locals) : M value :=
  if negb (providerIs L "discord") then throw (onlyDiscord L "Role changes are")
  else
    guildId <- readString (params L) "guildId" requiredParam ;;
    userId <- readString (params L) "userId" requiredParam ;;
    roleId <- readString (params L) "roleId" requiredParam ;;
    let providerAction :=
      if actionIs (action L) "role-add" then "roleAdd" else "roleRemove" in
    discordAction L
      [ ("action", VStr providerAction); ("guildId", ofString guildId);
        ("userId", ofString userId); ("roleId", ofString roleId) ].

(** [action === "channel-info"]. *)
Definition channelInfoBranch (L : Locals) : M value :=
  if negb (providerIs L "discord") then throw (onlyDiscord L "Channel info is")
  else
    channelId <- readString (params L) "channelId" requiredParam ;;
    discordAction L
      [ ("action", VStr "channelInfo"); ("channelId", ofString channelId) ].

(** [action === "channel-list"]. *)
Definition channelListBranch (L : Locals) : M value :=
  if negb (providerIs L "discord") then throw (onlyDiscord L "Channel list is")
  else
    guildId <- readString (params L) "guildId" requiredParam ;;
    discordAction L [ ("action", VStr "channelList"); ("guildId", ofString guildId) ].

(** [action === "voice-status"]. *)
Definition voiceStatusBranch (L : Locals) : M value :=
  if negb (providerIs L "discord") then throw (onlyDiscord L "Voice status is")
  else
    guildId <- readString (params L) "guildId" requiredParam ;;
    userId <- readString (params L) "userId" requiredParam ;;
    discordAction L
      [ ("action", VStr "voiceStatus"); ("guildId", ofString guildId);
        ("userId", ofString userId) ].

(** [action === "event-list"]. *)
Definition eventListBranch (L : Locals) : M value :=
  if negb (providerIs L "discord") then throw (onlyDiscord L "Event list is")
  else
    guildId <- readString (params L) "guildId" requiredParam ;;
    discordAction L [ ("action", VStr "eventList"); ("guildId", ofString guildId) ].

(** [action === "event-create"]. *)
Definition eventCreateBranch (L : Locals) : M value :=
  if negb (providerIs L "discord") then throw (onlyDiscord L "Event create is")
  else
    guildId <- readString (params L) "guildId" requiredParam ;;
    name <- readString (params L) "eventName" requiredParam ;;
    startTime <- readString (params L) "startTime" requiredParam ;;
    endTime <- readString (params L) "endTime" optional ;;
    description <- readString (params L) "desc" optional ;;
    channelId <- readString (params L) "channelId" optional ;;
    location <- readString (params L) "location" optional ;;
    entityType <- readString (params L) "eventType" optional ;;
    discordAction L
      [ ("action", VStr "eventCreate"); ("guildId", ofString guildId);
        ("name", ofString name); ("startTime", ofString startTime);
        ("endTime", ofString endTime); ("description", ofString description);
        ("channelId", ofString channelId); ("location", ofString location);
        ("entityType", ofString entityType) ].

(** [action === "timeout" || action === "kick" || action === "ban"]. *)
Definition moderationBranch (L : Locals) : M value :=
  if negb (providerIs L "discord") then throw (onlyDiscord L "Moderation actions are")
  else
    guildId <- readString (params L) "guildId" requiredParam ;;
    userId <- readString (params L) "userId" requiredParam ;;
    durationMinutes <- readNumber (params L) "durationMin" {| integer := true |} ;;
    until <- readString (params L) "until" optional ;;
    reason <- readString (params L) "reason" optional ;;
    deleteMessageDays <- readNumber (params L) "deleteDays" {| integer := true |} ;;
    discordAction L
      [ ("action", ofString (action L)); ("guildId", ofString guildId);
        ("userId", ofString userId);
        ("durationMinutes", ofNumber durationMinutes);
        ("until", ofString until); ("reason", ofString reason);
        ("deleteMessageDays", ofNumber deleteMessageDays) ].

(** The chain of [if (action === ...)] tests, in source order, ending in
    [throw new Error(`Unknown action: ${action}`)]. *)
Definition dispatch (L : Locals) : M value :=
  let named := actionIs (action L) in
  if named "send" then sendBranch L
  else if named "poll" then pollBranch L
  else if named "react" then reactBranch L
  else if named "reactions" then reactionsBranch L
  else if named "read" then readBranch L
  else if named "edit" then editBranch L
  else if named "delete" then deleteBranch L
  else if named "pin" || named "unpin" || named "list-pins" then pinsBranch L
  else if named "permissions" then permissionsBranch L
  else if named "thread-create" then threadCreateBranch L
  else if named "thread-list" then threadListBranch L
  else if named "thread-reply" then threadReplyBranch L
  else if named "search" then searchBranch L
  else if named "sticker" then stickerBranch L
  else if named "member-info" then memberInfoBranch L
  else if named "role-info" then roleInfoBranch L
  else if named "emoji-list" then emojiListBranch L
  else if named "emoji-upload" then emojiUploadBranch L
  else if named "sticker-upload" then stickerUploadBranch L
  else if named "role-add" || named "role-remove" then roleChangeBranch L
  else if named "channel-info" then channelInfoBranch L
  else if named "channel-list" then channelListBranch L
  else if named "voice-status" then voiceStatusBranch L
  else if named "event-list" then eventListBranch L
  else if named "event-create" then eventCreateBranch L
  else if named "timeout" || named "kick" || named "ban" then moderationBranch L
  else throw (UnknownAction ("Unknown action: " +:+ templateText (action L))).

(** The statements of [execute] that precede the action branches: the
    action name, provider resolution, the account, the gateway and the
    dry-run flag. *)
Definition prelude (args : gmap string value) : M Locals :=
  let agentAccountId := resolveAgentAccountId (options ≫= agentAccountId) in
  let params := args in
  let cfg := default loadConfig (options ≫= config) in
  action <- readString params "action" requiredParam ;;
  providerParam <- readString params "provider" optional ;;
  providerSelection <-
    call (ResolveProvider providerParam)
         (resolveMessageProviderSelection cfg providerParam) ;;
  let provider := provider providerSelection in
  accountIdParam <- readString params "accountId" optional ;;
  let accountId :=
    match accountIdParam with Some _ => accountIdParam | None => agentAccountId end in
  gatewayUrl <- readString params "gatewayUrl" untrimmed ;;
  gatewayToken <- readString params "gatewayToken" untrimmed ;;
  gatewayTimeoutMs <- readNumber params "timeoutMs" {| integer := false |} ;;
  let gateway :=
    {| url := gatewayUrl; token := gatewayToken; timeoutMs := gatewayTimeoutMs;
       clientName := "agent"; mode := "agent" |} in
  let dryRun := truthy (getProp params "dryRun") in
  ret {| params := params; cfg := cfg; action := action;
         resolvedProvider := provider; accountId := accountId;
         gateway := gateway; dryRun := dryRun |}.

Definition execute (args : gmap string value) : M value :=
  L <- prelude args ;;
  dispatch L.

End Execute.

(** [createMessageTool(options).parameters]. *)
Definition toolParameters (options : option MessageToolOptions) : TSchema :=
  match options ≫= config with
  | Some c => buildMessageToolSchema c
  | None => MessageToolSchema
  end.

(** ** A closed world for the examples *)

(** Modelled from the spec: [readStringParam] of [./common.js] is not part
    of the sources at hand.  Spec, section 4.1: a missing required key fails
    with MissingRequiredParameter(key); a present value of the wrong shape
    fails with InvalidParameterType(key); [trim] strips surrounding white
    space before the emptiness check; [allowEmpty] lets a present but empty
    string through. *)
Definition specReadStringParam (params : gmap string value) (key : string)
    (opts : StringParamOptions) : Error + option string :=
  match getProp params key with
  | VUndefined =>
      if required opts then inl (MissingRequiredParameter key) else inr None
  | VStr raw =>
      let v := if trimmed opts then trim raw else raw in
      if nonEmpty v || allowEmpty opts then inr (Some v)
      else if required opts then inl (MissingRequiredParameter key)
      else inr None
  | _ => inl (InvalidParameterType key)
  end.

(** Modelled from the spec: [readNumberParam] of [./common.js], section 4.1
    as above; on integers [integer: true] changes nothing. *)
Definition specReadNumberParam (params : gmap string value) (key : string)
    (opts : NumberParamOptions) : Error + option Z :=
  match getProp params key with
  | VUndefined => inr None
  | VNum n => inr (Some n)
  | _ => inl (InvalidParameterType key)
  end.

Fixpoint stringsOf (items : list value) : option (list string) :=
  match items with
  | [] => Some []
  | VStr s :: rest => cons s <$> stringsOf rest
  | _ => None
  end.

(** Modelled from the spec: [readStringArrayParam] of [./common.js],
    section 4.1 as above ("array expected, scalar given" is the wrong
    shape). *)
Definition specReadStringArrayParam (params : gmap string value) (key : string)
    (opts : StringArrayParamOptions) : Error + option (list string) :=
  match getProp params key with
  | VUndefined =>
      if requiredArray opts then inl (MissingRequiredParameter key) else inr None
  | VArr items =>
      match stringsOf items with
      | Some l => inr (Some l)
      | None => inl (InvalidParameterType key)
      end
  | _ => inl (InvalidParameterType key)
  end.

(** The providers with at least one enabled account, in a fixed order. *)
Definition enabledProviders (cfg : ClawdbotConfig) : list string :=
  (if existsb (fun a => negb (Discord.tokenSource a =? "none")%string)
        (listEnabledDiscordAccounts cfg) then ["discord"] else [])
  ++ (if existsb (fun a => negb (Slack.botTokenSource a =? "none")%string)
        (listEnabledSlackAccounts cfg) then ["slack"] else [])
  ++ (if existsb (fun a => negb (Telegram.tokenSource a =? "none")%string)
        (listEnabledTelegramAccounts cfg) then ["telegram"] else [])
  ++ (if existsb WhatsApp.enabled (default [] (WhatsApp.accounts <$> whatsapp cfg))
      then ["whatsapp"] else [])
  ++ (match msteams cfg with
      | Some m =>
          if negb (bool_decide (MSTeams.enabled m = Some false))
             && bool_decide (is_Some (resolveMSTeamsCredentials m))
          then ["msteams"] else []
      | None => []
      end).

(** Modelled from the spec: [resolveMessageProviderSelection] of
    [../../infra/outbound/provider-selection.js] is not part of the sources
    at hand.  Spec, section 4.5: the explicit provider wins; without one, the
    single enabled provider if exactly one exists; anything else fails with
    ProviderResolutionFailure. *)
Definition specResolveMessageProviderSelection (cfg : ClawdbotConfig)
    (explicit : option string) : Error + ProviderSelection :=
  match explicit with
  | Some p => inr {| provider := p |}
  | None =>
      match enabledProviders cfg with
      | [p] => inr {| provider := p |}
      | _ => inl (ProviderResolutionFailure "provider is ambiguous")
      end
  end.

Definition emptyConfig : ClawdbotConfig :=
  {| discord := None; slack := None; telegram := None;
     whatsapp := None; msteams := None |}.

Definition accepted : value := VObj [("ok", VBool true)].

(** Collaborators for the examples: extraction and provider resolution as
    the spec describes them, senders and handlers that accept every
    request. *)
Definition testCollaborators : Collaborators :=
  {| loadConfig := emptyConfig;
     normalizeAccountId := toLowerCase;
     jsonResult := fun v => VObj [("details", v)];
     readStringParam := specReadStringParam;
     readNumberParam := specReadNumberParam;
     readStringArrayParam := specReadStringArrayParam;
     resolveMessageProviderSelection := specResolveMessageProviderSelection;
     sendMessage := fun _ => inr accepted;
     sendPoll := fun _ => inr accepted;
     handleDiscordAction := fun _ _ => inr accepted;
     handleSlackAction := fun _ _ _ => inr accepted;
     handleTelegramAction := fun _ _ => inr accepted;
     handleWhatsAppAction := fun _ _ => inr accepted |}.

(** One Discord account, enabled, with a configured token; [gates] is
    [discord.actions]. *)
Definition discordConfig (gates : option ActionConfig) : ClawdbotConfig :=
  {| discord :=
       Some {| Discord.actions := gates;
               Discord.accounts :=
                 [ {| Discord.accountId := "default"; Discord.enabled := true;
                      Discord.tokenSource := "config" |} ] |};
     slack := None; telegram := None; whatsapp := None; msteams := None |}.

(** A WhatsApp section whose only account is disabled. *)
Definition whatsappDisabledConfig : ClawdbotConfig :=
  {| discord := None; slack := None; telegram := None;
     whatsapp :=
       Some {| WhatsApp.actions := None;
               WhatsApp.accounts :=
                 [ {| WhatsApp.accountId := "default";
                      WhatsApp.enabled := false |} ] |};
     msteams := None |}.

(** MS Teams with credentials and nothing else. *)
Definition teamsConfig : ClawdbotConfig :=
  {| discord := None; slack := None; telegram := None; whatsapp := None;
     msteams :=
       Some {| MSTeams.enabled := None;
               MSTeams.credentials :=
                 Some {| MSTeams.appId := "app"; MSTeams.appPassword := "secret";
                         MSTeams.tenantId := "tenant" |} |} |}.

(** Two Telegram accounts: the enabled one declares no capability, the
    disabled one declares inline buttons. *)
Definition telegramStaleButtonsConfig : ClawdbotConfig :=
  {| discord := None; slack := None;
     telegram :=
       Some {| Telegram.actions := None;
               Telegram.cfgCapabilities := None;
               Telegram.accounts :=
                 Some [ {| Telegram.accountId := "main"; Telegram.enabled := true;
                           Telegram.tokenSource := "config";
                           Telegram.capabilities := None |};
                        {| Telegram.accountId := "old"; Telegram.enabled := false;
                           Telegram.tokenSource := "config";
                           Telegram.capabilities := Some ["inlineButtons"] |} ] |};
     whatsapp := None; msteams := None |}.

(** The claim of the spec about the [buttons] field, in its words: an
    enabled account of the provider exists, and the capability is declared
    on an enabled account. *)
Definition declaresInlineButtons (account : Telegram.Account) : bool :=
  includes (addCapabilities (default [] (Telegram.capabilities account)) [])
           "inlinebuttons".

Definition specIncludeButtons (cfg : ClawdbotConfig) : bool :=
  let enabledAccounts :=
    List.filter (fun a => negb (Telegram.tokenSource a =? "none")%string)
                (listEnabledTelegramAccounts cfg) in
  (0 <? List.length enabledAccounts)%nat
  && existsb declaresInlineButtons enabledAccounts.

(** Two configurations that differ in the order of their account lists
    only. *)
Record sameUpToAccountOrder (c c' : ClawdbotConfig) : Prop := {
  discordOrder :
    option_Forall2
      (fun d d' => Discord.actions d = Discord.actions d'
                   ∧ Discord.accounts d ≡ₚ Discord.accounts d')
      (discord c) (discord c');
  slackOrder :
    option_Forall2
      (fun s s' => Slack.cfgActions s = Slack.cfgActions s'
                   ∧ Slack.accounts s ≡ₚ Slack.accounts s')
      (slack c) (slack c');
  telegramOrder :
    option_Forall2
      (fun t t' => Telegram.actions t = Telegram.actions t'
                   ∧ Telegram.cfgCapabilities t = Telegram.cfgCapabilities t'
                   ∧ option_Forall2 Permutation (Telegram.accounts t) (Telegram.accounts t'))
      (telegram c) (telegram c');
  whatsappOrder :
    option_Forall2
      (fun w w' => WhatsApp.actions w = WhatsApp.actions w'
                   ∧ WhatsApp.accounts w ≡ₚ WhatsApp.accounts w')
      (whatsapp c) (whatsapp c');
  msteamsOrder : msteams c = msteams c'
}.

(** The actions whose branch opens with the Discord guard. *)
Definition discordOnlyActions : list string :=
  [ "permissions"; "thread-create"; "thread-list"; "thread-reply"; "search";
    "sticker"; "role-info"; "emoji-upload"; "sticker-upload"; "role-add";
    "role-remove"; "channel-info"; "channel-list"; "voice-status";
    "event-list"; "event-create"; "timeout"; "kick"; "ban" ].

(** The actions that serve several providers and read their shared
    parameters before the provider tests. *)
Definition extractFirstActions : list string :=
  [ "react"; "reactions"; "read"; "edit"; "delete"; "pin"; "unpin";
    "list-pins"; "member-info" ].

Definition isUnsupported (e : Error) : bool :=
  match e with
  | UnsupportedActionForProvider _ => true
  | _ => false
  end.

(** [e] is what an extractor answered on the bag. *)
Definition extractorAnswered `{Collaborators} (params : gmap string value)
    (e : Error) : Prop :=
  (∃ key opts, readStringParam params key opts = inl e)
  ∨ (∃ key opts, readNumberParam params key opts = inl e)
  ∨ (∃ key opts, readStringArrayParam params key opts = inl e).

(** The events of a [prelude] that came through. *)
Definition preludeTrace (providerParam : option string) : list Event :=
  [ Extract StringParam "action"; Extract StringParam "provider";
    ResolveProvider providerParam; Extract StringParam "accountId";
    Extract StringParam "gatewayUrl"; Extract StringParam "gatewayToken";
    Extract NumberParam "timeoutMs" ].

(** The hypothesis of the spec's first testable property, in its words:
    no provider has an enabled account (for MS Teams: it is disabled, or its
    credentials do not resolve). *)
Definition noProviderAccountEnabled (cfg : ClawdbotConfig) : Prop :=
  listEnabledDiscordAccounts cfg = []
  ∧ listEnabledSlackAccounts cfg = []
  ∧ listEnabledTelegramAccounts cfg = []
  ∧ List.filter WhatsApp.enabled (default [] (WhatsApp.accounts <$> whatsapp cfg)) = []
  ∧ (∀ m, msteams cfg = Some m →
          MSTeams.enabled m = Some false ∨ resolveMSTeamsCredentials m = None).

(** Every section present, every account disabled, MS Teams switched off. *)
Definition allDisabledConfig : ClawdbotConfig :=
  {| discord :=
       Some {| Discord.actions := Some {[ "roles" := true ]};
               Discord.accounts :=
                 [ {| Discord.accountId := "default"; Discord.enabled := false;
                      Discord.tokenSource := "config" |} ] |};
     slack :=
       Some {| Slack.cfgActions := None;
               Slack.accounts :=
                 [ {| Slack.accountId := "default"; Slack.enabled := false;
                      Slack.botTokenSource := "config"; Slack.actions := None |} ] |};
     telegram :=
       Some {| Telegram.actions := None; Telegram.cfgCapabilities := None;
               Telegram.accounts := Some [] |};
     whatsapp := None;
     msteams :=
       Some {| MSTeams.enabled := Some false;
               MSTeams.credentials :=
                 Some {| MSTeams.appId := "app"; MSTeams.appPassword := "secret";
                         MSTeams.tenantId := "tenant" |} |} |}.

(** Two Slack accounts, the first denying "reactions", the second silent
    about it; and the same snapshot with the two accounts swapped. *)
Definition slackDenying : Slack.Account :=
  {| Slack.accountId := "ops"; Slack.enabled := true;
     Slack.botTokenSource := "config";
     Slack.actions := Some {[ "reactions" := false ]} |}.

Definition slackSilent : Slack.Account :=
  {| Slack.accountId := "team"; Slack.enabled := true;
     Slack.botTokenSource := "env"; Slack.actions := None |}.

Definition slackConfig (accounts : list Slack.Account) : ClawdbotConfig :=
  {| discord := None;
     slack := Some {| Slack.cfgActions := None; Slack.accounts := accounts |};
     telegram := None; whatsapp := None; msteams := None |}.

(** The providers for which the branch of an action reaches a handler, read
    off the provider tests of the branch (the [allowedProviders] of the
    spec's descriptors).  [None] stands for "any": "send" and "poll" end in
    the generic sender; a name without a branch has no set. *)
Definition allowedProviders (name : string) : option (list string) :=
  if includes ["send"; "poll"] name then None
  else if (name =? "react")%string
  then Some ["discord"; "slack"; "telegram"; "whatsapp"]
  else if includes [ "reactions"; "read"; "edit"; "delete"; "pin"; "unpin";
                     "list-pins"; "member-info"; "emoji-list" ] name
  then Some ["discord"; "slack"]
  else if includes discordOnlyActions name then Some ["discord"]
  else None.

(** Requests and tool options for the examples. *)
Definition bag (fields : list (string * value)) : gmap string value :=
  list_to_map fields.

Definition toolOptions (c : ClawdbotConfig) : option MessageToolOptions :=
  Some {| agentAccountId := None; config := Some c;
          currentChannelId := None; currentThreadTs := None;
          replyToMode := None; hasRepliedRef := None |}.


Definition dryRunSendArgs : gmap string value :=
  bag [ ("action", VStr "send"); ("provider", VStr "discord");
        ("dryRun", VBool true); ("to", VStr "general");
        ("message", VStr "hello") ].

Definition reactOnSignalArgs : gmap string value :=
  bag [ ("action", VStr "react"); ("provider", VStr "signal") ].

Definition reactOnSignalFullArgs : gmap string value :=
  bag [ ("action", VStr "react"); ("provider", VStr "signal");
        ("messageId", VStr "1001"); ("emoji", VStr "ok") ].

Definition permissionsOnSlackArgs : gmap string value :=
  bag [ ("action", VStr "permissions"); ("provider", VStr "slack");
        ("channelId", VStr "general") ].

Definition bogusArgs : gmap string value :=
  bag [ ("action", VStr "bogus"); ("provider", VStr "discord") ].

Definition bogusNoProviderArgs : gmap string value :=
  bag [ ("action", VStr "bogus") ].

Definition sendOnSignalArgs : gmap string value :=
  bag [ ("action", VStr "send"); ("provider", VStr "signal");
        ("to", VStr "+15550100"); ("message", VStr "hi");
        ("media", VStr "https://example.org/a.png") ].

(** Discord and Slack both enabled: no single provider to fall back on. *)
Definition twoProvidersConfig : ClawdbotConfig :=
  {| discord :=
       Some {| Discord.actions := None;
               Discord.accounts :=
                 [ {| Discord.accountId := "default"; Discord.enabled := true;
                      Discord.tokenSource := "config" |} ] |};
     slack := Some {| Slack.cfgActions := None; Slack.accounts := [slackSilent] |};
     telegram := None; whatsapp := None; msteams := None |}.

(** The [dryRun] flag a generic sender was called with. *)
Definition sentDryRun (e : Event) : option bool :=
  match e with
  | SendMessage args => Some (MessageSend.dryRun args)
  | SendPoll args => Some (MessagePoll.dryRun args)
  | _ => None
  end.


(** What an extract-first branch does on a provider it does not serve: it
    fails, after extractions only, with the unsupported-provider failure or
    with what an extractor answered. *)
Definition failsAfterExtraction `{Collaborators} (L : Locals) (m : M value) : Prop :=
  ∃ e, outcome m = inl e
       ∧ trace m ≠ []
       ∧ Forall (fun ev => isExtraction ev = true) (trace m)
       ∧ (isUnsupported e = true ∨ extractorAnswered (params L) e).

(** ** Reading the contract and the requests *)

(** The literals of a [Type.Literal] or of a [Type.Union] of literals. *)
Definition literalsOf (schema : TSchema) : list string :=
  match schema with
  | TLiteral lit => [lit]
  | TUnion alternatives =>
      flat_map (fun a => match a with TLiteral lit => [lit] | _ => [] end)
               alternatives
  | _ => []
  end.

(** The object shapes of the contract. *)
Definition shapes (schema : TSchema) : list TSchema :=
  match schema with
  | TUnion alternatives => alternatives
  | _ => [schema]
  end.

(** The action names a shape accepts: the literals of its [action]
    property. *)
Definition shapeActions (shape : TSchema) : list string :=
  match shape with
  | TObject props =>
      flat_map (fun p => if (fst p =? "action")%string then literalsOf (snd p) else [])
               props
  | _ => []
  end.

(** The action names the contract accepts, shape after shape. *)
Definition advertisedActions (schema : TSchema) : list string :=
  flat_map shapeActions (shapes schema).

Definition isOptional (schema : TSchema) : bool :=
  match schema with
  | TOptional _ => true
  | _ => false
  end.

(** The properties of a shape that are not wrapped in [Type.Optional]. *)
Definition requiredFields (shape : TSchema) : list string :=
  match shape with
  | TObject props => map fst (List.filter (fun p => negb (isOptional (snd p))) props)
  | _ => []
  end.

(** The property [key] of an object literal, if the literal has it. *)
Fixpoint fieldOf (key : string) (fields : list (string * value)) : option value :=
  match fields with
  | [] => None
  | (k, v) :: rest => if (k =? key)%string then Some v else fieldOf key rest
  end.

Definition requestField (request : value) (key : string) : option value :=
  match request with
  | VObj fields => fieldOf key fields
  | _ => None
  end.

(** ** Providers behind the catalog *)

(** A provider counts for the catalog builder: an enabled account with a
    token for Discord, Slack and Telegram, the section itself for
    WhatsApp. *)
Definition providerConfigured (cfg : ClawdbotConfig) (p : string) : Prop :=
  (p = "discord"
   ∧ ∃ account, account ∈ listEnabledDiscordAccounts cfg
                ∧ Discord.tokenSource account ≠ "none")
  ∨ (p = "slack"
     ∧ ∃ account, account ∈ listEnabledSlackAccounts cfg
                  ∧ Slack.botTokenSource account ≠ "none")
  ∨ (p = "telegram"
     ∧ ∃ account, account ∈ listEnabledTelegramAccounts cfg
                  ∧ Telegram.tokenSource account ≠ "none")
  ∨ (p = "whatsapp" ∧ is_Some (whatsapp cfg)).

(** Some enabled Slack account with a token grants [key]: its own
    [actions] map decides when it has one, the provider-level map
    otherwise. *)
Definition slackGrants (cfg : ClawdbotConfig) (key : string)
    (defaultValue : bool) : Prop :=
  ∃ account,
    account ∈ listEnabledSlackAccounts cfg
    ∧ Slack.botTokenSource account ≠ "none"
    ∧ createActionGate
        (match Slack.actions account with
         | Some a => Some a
         | None => slack cfg ≫= Slack.cfgActions
         end) key defaultValue = true.

Definition discordGrants (cfg : ClawdbotConfig) (key : string)
    (defaultValue : bool) : Prop :=
  (∃ account, account ∈ listEnabledDiscordAccounts cfg
              ∧ Discord.tokenSource account ≠ "none")
  ∧ createActionGate (discord cfg ≫= Discord.actions) key defaultValue = true.

(** The action families that Discord and Slack share, with the gate key
    of each. *)
Definition sharedFamilies : list (string * list string) :=
  [ ("reactions", ["reactions"]);
    ("messages", ["read"; "edit"; "delete"]);
    ("pins", ["pin"; "unpin"; "list-pins"]) ].

(** Telegram and nothing else: one enabled account, [gates] is
    [telegram.actions]. *)
Definition telegramConfig (gates : option ActionConfig) : ClawdbotConfig :=
  {| discord := None; slack := None;
     telegram :=
       Some {| Telegram.actions := gates; Telegram.cfgCapabilities := None;
               Telegram.accounts :=
                 Some [ {| Telegram.accountId := "default";
                           Telegram.enabled := true;
                           Telegram.tokenSource := "env";
                           Telegram.capabilities := None |} ] |};
     whatsapp := None; msteams := None |}.

(** ** One call, one collaborator *)

(** The third argument of [handleSlackAction] in the "send" branch. *)
Definition slackContextOf (options : option MessageToolOptions) : SlackContext :=
  {| ctxCurrentChannelId := options ≫= currentChannelId;
     ctxCurrentThreadTs := options ≫= currentThreadTs;
     ctxReplyToMode := options ≫= replyToMode;
     ctxHasRepliedRef := options ≫= hasRepliedRef |}.

(** What the source does with the answer of a generic sender:
    [jsonResult(result)]; a rejection passes through. *)
Definition wrapped `{Collaborators} (answer : Error + value) : Error + value :=
  match answer with
  | inl e => inl e
  | inr result => inr (jsonResult result)
  end.

(** What the collaborator behind a dispatch event answered, as [execute]
    returns it. *)
Definition answerOf `{Collaborators} (cfg : ClawdbotConfig) (e : Event) :
    option (Error + value) :=
  match e with
  | SendMessage args => Some (wrapped (sendMessage args))
  | SendPoll args => Some (wrapped (sendPoll args))
  | DiscordAction request => Some (handleDiscordAction request cfg)
  | SlackAction request context => Some (handleSlackAction request cfg context)
  | TelegramAction request => Some (handleTelegramAction request cfg)
  | WhatsAppAction request => Some (handleWhatsAppAction request cfg)
  | _ => None
  end.

(** What holds of a call to a sender or handler, given the locals of the
    request it serves. *)
Definition routedTo (options : option MessageToolOptions) (L : Locals)
    (e : Event) : Prop :=
  match e with
  | DiscordAction request =>
      providerIs L "discord" = true
      ∧ requestField request "accountId" = None
  | SlackAction request context =>
      providerIs L "slack" = true
      ∧ requestField request "accountId" = Some (ofString (accountId L))
      ∧ context = (if actionIs (action L) "send"
                   then Some (slackContextOf options) else None)
  | TelegramAction request =>
      providerIs L "telegram" = true
      ∧ requestField request "accountId" = Some (ofString (accountId L))
      ∧ actionIs (action L) "send" || actionIs (action L) "react" = true
  | WhatsAppAction request =>
      providerIs L "whatsapp" = true
      ∧ requestField request "accountId" = Some (ofString (accountId L))
      ∧ actionIs (action L) "react" = true
  | SendMessage args =>
      actionIs (action L) "send" = true
      ∧ MessageSend.gateway args = gateway L
      ∧ MessageSend.dryRun args = dryRun L
      ∧ MessageSend.accountId args = accountId L
      ∧ MessageSend.provider args = orUndefined (Some (resolvedProvider L))
      ∧ dryRun L
        || negb (providerIs L "discord" || providerIs L "slack"
                 || providerIs L "telegram") = true
  | SendPoll args =>
      actionIs (action L) "poll" = true
      ∧ MessagePoll.gateway args = gateway L
      ∧ MessagePoll.dryRun args = dryRun L
      ∧ MessagePoll.provider args = resolvedProvider L
      ∧ MessagePoll.maxSelections args
        = maxSelectionsFor (booleanOrUndefined (getProp (params L) "pollMulti"))
                           (MessagePoll.options args)
      ∧ dryRun L || negb (providerIs L "discord") = true
  | _ => False
  end.

(** The shape of an action branch: it either fails after extractions only
    (and when it read nothing, the failure is the unsupported-provider one),
    or it ends with its single call to a sender or handler and returns what
    that collaborator answered. *)
Definition singleDispatch `{Collaborators} (options : option MessageToolOptions)
    (L : Locals) (m : M value) : Prop :=
  match dispatches (trace m) with
  | [] =>
      Forall (fun e => isExtraction e = true) (trace m)
      ∧ ∃ err, outcome m = inl err ∧ (trace m = [] → isUnsupported err = true)
  | [e] =>
      last (trace m) = Some e
      ∧ routedTo options L e
      ∧ answerOf (cfg L) e = Some (outcome m)
  | _ => False
  end.

(** The provider a handler belongs to. *)
Definition handlerProvider (e : Event) : option string :=
  match e with
  | DiscordAction _ => Some "discord"
  | SlackAction _ _ => Some "slack"
  | TelegramAction _ => Some "telegram"
  | WhatsAppAction _ => Some "whatsapp"
  | _ => None
  end.

(** What every step of the catalog builder keeps: no duplicates, known
    names only, "send" in front. *)
Definition catalogInvariant (s : list string) : Prop :=
  NoDup s ∧ Forall (fun name => name ∈ AllMessageActions) s ∧ head s = Some "send".

(** More requests for the examples. *)
Definition slackSendArgs : gmap string value :=
  bag [ ("action", VStr "send"); ("provider", VStr "slack");
        ("to", VStr "C123"); ("message", VStr "hello");
        ("threadId", VStr "1712.5") ].

Definition slackReadArgs : gmap string value :=
  bag [ ("action", VStr "read"); ("provider", VStr "slack");
        ("to", VStr "C123"); ("accountId", VStr "team") ].

Definition whatsappPollArgs : gmap string value :=
  bag [ ("action", VStr "poll"); ("provider", VStr "whatsapp");
        ("to", VStr "+15550100"); ("pollQuestion", VStr "Lunch?");
        ("pollOption", VArr [VStr "soup"; VStr "salad"; VStr "pasta"]);
        ("pollMulti", VBool true) ].

(** Tool options of a Slack session in auto-threading mode, with an agent
    account that needs trimming and normalising. *)
Definition threadedOptions : option MessageToolOptions :=
  Some {| agentAccountId := Some " Ops "; config := Some twoProvidersConfig;
          currentChannelId := Some "C123"; currentThreadTs := Some "1712.5";
          replyToMode := Some ReplyFirst; hasRepliedRef := Some false |}.

Definition agentGateway : Gateway :=
  {| url := None; token := None; timeoutMs := None;
     clientName := "agent"; mode := "agent" |}.

(** ** What the catalog is computed from *)





(** * Properties *)

(** ** The embedding on concrete inputs *)

Example trim_and_lower : toLowerCase (trim "  InlineButtons ") = "inlinebuttons".
Proof. reflexivity. Qed.

Example gate_three_valued :
  createActionGate (Some {[ "roles" := true ]}) "roles" false = true
  ∧ createActionGate (Some {[ "polls" := false ]}) "polls" true = false
  ∧ createActionGate (Some {[ "polls" := false ]}) "roles" false = false
  ∧ createActionGate None "polls" true = true.
Proof. by vm_compute. Qed.

Example catalog_empty : buildMessageActionList emptyConfig = ["send"].
Proof. reflexivity. Qed.

Example catalog_discord_default :
  buildMessageActionList (discordConfig None)
  = [ "send"; "react"; "reactions"; "read"; "edit"; "delete"; "pin"; "unpin";
      "list-pins"; "poll"; "permissions"; "thread-create"; "thread-list";
      "thread-reply"; "search"; "sticker"; "member-info"; "role-info";
      "emoji-list"; "emoji-upload"; "sticker-upload"; "channel-info";
      "channel-list"; "voice-status"; "event-list"; "event-create" ].
Proof. reflexivity. Qed.

Example catalog_discord_roles :
  buildMessageActionList
    (discordConfig (Some {[ "roles" := true; "polls" := false ]}))
  = [ "send"; "react"; "reactions"; "read"; "edit"; "delete"; "pin"; "unpin";
      "list-pins"; "permissions"; "thread-create"; "thread-list";
      "thread-reply"; "search"; "sticker"; "member-info"; "role-info";
      "emoji-list"; "emoji-upload"; "sticker-upload"; "role-add";
      "role-remove"; "channel-info"; "channel-list"; "voice-status";
      "event-list"; "event-create" ].
Proof. by vm_compute. Qed.

Example catalog_teams : buildMessageActionList teamsConfig = ["send"; "poll"].
Proof. reflexivity. Qed.

(** One Slack account denies "reactions", the other does not: the
    capability is granted. *)
Example catalog_slack_or :
  buildMessageActionList (slackConfig [slackDenying; slackSilent])
  = [ "send"; "react"; "reactions"; "read"; "edit"; "delete"; "pin"; "unpin";
      "list-pins"; "member-info"; "emoji-list" ]
  ∧ buildMessageActionList (slackConfig [slackDenying])
    = [ "send"; "read"; "edit"; "delete"; "pin"; "unpin"; "list-pins";
        "member-info"; "emoji-list" ].
Proof. by vm_compute. Qed.

Example schema_without_buttons :
  schemaAdvertises "buttons" (buildMessageToolSchema (discordConfig None)) = false
  ∧ schemaAdvertises "buttons" MessageToolSchema = true
  ∧ schemaAdvertises "dryRun" (buildMessageToolSchema (discordConfig None)) = true.
Proof. by vm_compute. Qed.

Example dry_run_send_trace :
  @execute testCollaborators (toolOptions (discordConfig None)) dryRunSendArgs
  = ( preludeTrace (Some "discord")
      ++ [ Extract StringParam "to"; Extract StringParam "message";
           Extract StringParam "media"; Extract StringParam "replyTo";
           Extract StringParam "threadId";
           SendMessage
             {| MessageSend.to := Some "general";
                MessageSend.content := Some "hello";
                MessageSend.mediaUrl := None;
                MessageSend.provider := Some "discord";
                MessageSend.accountId := None;
                MessageSend.gifPlayback := false;
                MessageSend.dryRun := true;
                MessageSend.bestEffort := None;
                MessageSend.gateway :=
                  {| url := None; token := None; timeoutMs := None;
                     clientName := "agent"; mode := "agent" |} |} ],
      inr (VObj [("details", accepted)]) ).
Proof. reflexivity. Qed.

(** ** Sets of action names *)

Lemma includes_true (l : list string) (x : string) :
  includes l x = true ↔ x ∈ l.
Proof.
  unfold includes. rewrite existsb_exists. split.
  - intros (y & Hy & Heq). apply String.eqb_eq in Heq. subst.
    by apply list_elem_of_In.
  - intros Hx. exists x. split; [by apply list_elem_of_In | apply String.eqb_refl].
Qed.

Lemma includes_app (l l' : list string) (x : string) :
  includes (l ++ l') x = includes l x || includes l' x.
Proof. unfold includes. apply existsb_app. Qed.

Lemma includes_Set_add (y : string) (s : list string) (x : string) :
  includes (Set_add y s) x = (x =? y)%string || includes s x.
Proof.
  unfold Set_add. destruct (includes s y) eqn:Hy.
  - destruct (String.eqb_spec x y) as [->|]; [by rewrite Hy | done].
  - rewrite includes_app. cbn. rewrite orb_false_r. apply orb_comm.
Qed.

Lemma includes_when1 (c : bool) (a : string) (s : list string) (x : string) :
  includes (when c (Set_add a) s) x = c && (x =? a)%string || includes s x.
Proof. destruct c; [apply includes_Set_add | done]. Qed.

Lemma includes_when2 (c : bool) (a b : string) (s : list string) (x : string) :
  includes (when c (fun s => Set_add a (Set_add b s)) s) x
  = c && ((x =? a)%string || (x =? b)%string) || includes s x.
Proof.
  destruct c; [|done]. unfold when. rewrite !includes_Set_add. by rewrite orb_assoc.
Qed.

Lemma includes_when3 (c : bool) (a b d : string) (s : list string) (x : string) :
  includes (when c (fun s => Set_add a (Set_add b (Set_add d s))) s) x
  = c && ((x =? a)%string || (x =? b)%string || (x =? d)%string) || includes s x.
Proof.
  destruct c; [|done]. unfold when. rewrite !includes_Set_add. by rewrite !orb_assoc.
Qed.

(** Membership of a given name in the catalog, as the disjunction of the
    conditions under which a step of the builder adds it. *)
Ltac catalog_membership :=
  unfold buildMessageActionList; cbv zeta;
  repeat first [rewrite includes_when3 | rewrite includes_when2 | rewrite includes_when1];
  cbn [includes existsb String.eqb Ascii.eqb Bool.eqb];
  rewrite ?andb_false_r, ?orb_false_r, ?andb_true_r; cbn [orb andb].

Lemma gate_explicit (actions : option ActionConfig) (key : string) :
  createActionGate actions key false = true ↔ actions ≫= (.!! key) = Some true.
Proof.
  unfold createActionGate. destruct (actions ≫= _) as [[]|]; naive_solver.
Qed.

Lemma positive_length_exists {A} (l : list A) :
  (0 <? List.length l)%nat = true ↔ ∃ a, a ∈ l.
Proof.
  destruct l as [|a l]; cbn.
  - split; [done | intros [a Ha]; by apply not_elem_of_nil in Ha].
  - split; [intros _; exists a; constructor | done].
Qed.

Lemma elem_of_filter_bool {A} (f : A → bool) (l : list A) (a : A) :
  a ∈ List.filter f l ↔ a ∈ l ∧ f a = true.
Proof. rewrite !list_elem_of_In, filter_In. done. Qed.

Lemma differs_from_none (source : string) :
  negb (source =? "none")%string = true ↔ source ≠ "none".
Proof.
  rewrite negb_true_iff. destruct (String.eqb_spec source "none"); naive_solver.
Qed.

(** [discordEnabled], as a statement about the accounts. *)
Lemma discordEnabled_iff (cfg : ClawdbotConfig) :
  (0 <? List.length
          (List.filter (fun account => negb (Discord.tokenSource account =? "none")%string)
                       (listEnabledDiscordAccounts cfg)))%nat = true
  ↔ ∃ account, account ∈ listEnabledDiscordAccounts cfg
               ∧ Discord.tokenSource account ≠ "none".
Proof.
  rewrite positive_length_exists. split; intros [a Ha]; exists a.
  - apply elem_of_filter_bool in Ha. by rewrite <- differs_from_none.
  - apply elem_of_filter_bool. by rewrite differs_from_none.
Qed.

(** ** The catalog *)

Lemma catalog_includes_send (cfg : ClawdbotConfig) :
  includes (buildMessageActionList cfg) "send" = true.
Proof. by catalog_membership. Qed.

(** C5.  "poll" is in the catalog exactly when Discord is enabled and its
    "polls" gate grants, or the WhatsApp section is present and its "polls"
    gate grants, or MS Teams is not disabled and its credentials resolve. *)
Theorem poll_in_catalog_iff (cfg : ClawdbotConfig) :
  "poll" ∈ buildMessageActionList cfg ↔
    ((∃ account, account ∈ listEnabledDiscordAccounts cfg
                 ∧ Discord.tokenSource account ≠ "none")
     ∧ createActionGate (discord cfg ≫= Discord.actions) "polls" true = true)
    ∨ (∃ w, whatsapp cfg = Some w
            ∧ createActionGate (WhatsApp.actions w) "polls" true = true)
    ∨ (∃ m, msteams cfg = Some m ∧ MSTeams.enabled m ≠ Some false
            ∧ is_Some (resolveMSTeamsCredentials m)).
Proof.
  rewrite <- includes_true. catalog_membership.
  rewrite !orb_true_iff, !andb_true_iff, discordEnabled_iff, negb_true_iff.
  assert (Hw : match whatsapp cfg with
               | Some _ => createActionGate (whatsapp cfg ≫= WhatsApp.actions) "polls" true
               | None => false
               end = true
               ↔ ∃ w, whatsapp cfg = Some w
                      ∧ createActionGate (WhatsApp.actions w) "polls" true = true).
  { destruct (whatsapp cfg) as [w|]; cbn; [|by split; [|intros (? & ? & ?)]].
    split; [by exists w | by intros (? & [= <-] & ?)]. }
  assert (Hm : bool_decide (msteams cfg ≫= MSTeams.enabled = Some false) = false
               ∧ match msteams cfg with
                 | Some m => bool_decide (is_Some (resolveMSTeamsCredentials m))
                 | None => false
                 end = true
               ↔ ∃ m, msteams cfg = Some m ∧ MSTeams.enabled m ≠ Some false
                      ∧ is_Some (resolveMSTeamsCredentials m)).
  { destruct (msteams cfg) as [m|]; cbn;
      [|by split; [intros [_ ?]|intros (? & ? & ?)]].
    rewrite bool_decide_eq_false, bool_decide_eq_true.
    split; [by exists m | by intros (? & [= <-] & ?)]. }
  tauto.
Qed.

(** C6.  role-add and role-remove are in the catalog exactly when Discord is
    enabled and its "roles" gate is explicitly [true]; timeout, kick and ban
    exactly when Discord is enabled and its "moderation" gate is explicitly
    [true].  An absent key therefore keeps all five out. *)
Theorem privileged_actions_need_explicit_gate (cfg : ClawdbotConfig) :
  let discordOn :=
    ∃ account, account ∈ listEnabledDiscordAccounts cfg
               ∧ Discord.tokenSource account ≠ "none" in
  let explicitly (key : string) :=
    (discord cfg ≫= Discord.actions) ≫= (.!! key) = Some true in
  Forall (fun name => name ∈ buildMessageActionList cfg ↔ discordOn ∧ explicitly "roles")
         ["role-add"; "role-remove"]
  ∧ Forall (fun name => name ∈ buildMessageActionList cfg
                        ↔ discordOn ∧ explicitly "moderation")
           ["timeout"; "kick"; "ban"].
Proof.
  cbv zeta. split; repeat apply List.Forall_cons; try apply List.Forall_nil;
    rewrite <- includes_true; catalog_membership;
    by rewrite andb_true_iff, discordEnabled_iff, gate_explicit.
Qed.

(** C4 (as the spec states it fails).  A WhatsApp section whose only account
    is disabled leaves no provider account enabled, and the catalog still
    offers "react" and "poll": the builder tests the presence of the section,
    not its accounts. *)
Lemma whatsapp_section_widens_catalog :
  noProviderAccountEnabled whatsappDisabledConfig
  ∧ buildMessageActionList whatsappDisabledConfig = ["send"; "react"; "poll"]
  ∧ buildMessageActionList whatsappDisabledConfig ≠ ["send"].
Proof.
  split; [|split; [reflexivity | discriminate]].
  unfold noProviderAccountEnabled. cbn. by repeat split.
Qed.

(** C4 (amended).  With no enabled Discord, Slack or Telegram account, no
    WhatsApp section, and MS Teams disabled or without credentials, the
    catalog is exactly ["send"]. *)
Theorem catalog_send_only (cfg : ClawdbotConfig) :
  listEnabledDiscordAccounts cfg = [] →
  listEnabledSlackAccounts cfg = [] →
  listEnabledTelegramAccounts cfg = [] →
  whatsapp cfg = None →
  (∀ m, msteams cfg = Some m →
        MSTeams.enabled m = Some false ∨ resolveMSTeamsCredentials m = None) →
  buildMessageActionList cfg = ["send"].
Proof.
  intros Hd Hs Ht Hw Hm. unfold buildMessageActionList.
  rewrite Hd, Hs, Ht, Hw. cbn.
  destruct (msteams cfg) as [m|]; [|done]. cbn.
  destruct (Hm m eq_refl) as [-> | ->]; [done|].
  cbn. by rewrite andb_false_r.
Qed.

Lemma catalog_send_only_witness :
  listEnabledDiscordAccounts allDisabledConfig = []
  ∧ listEnabledSlackAccounts allDisabledConfig = []
  ∧ listEnabledTelegramAccounts allDisabledConfig = []
  ∧ whatsapp allDisabledConfig = None
  ∧ buildMessageActionList allDisabledConfig = ["send"].
Proof.
  do 4 (split; [reflexivity|]).
  apply (catalog_send_only allDisabledConfig); try reflexivity.
  intros m [= <-]. by left.
Defined.

(** ** Order of the account lists *)

Lemma filter_Permutation_bool {A} (f : A → bool) (l l' : list A) :
  l ≡ₚ l' → List.filter f l ≡ₚ List.filter f l'.
Proof.
  induction 1 as [|x l l' _ IH|x y l|l l' l'' _ IH _ IH']; cbn.
  - done.
  - destruct (f x); [by constructor | done].
  - destruct (f x), (f y); try done. apply perm_swap.
  - by etrans.
Qed.

Lemma slackGateLoop_Permutation (cfg : ClawdbotConfig) (key : string)
    (defaultValue : bool) (l l' : list Slack.Account) :
  l ≡ₚ l' → slackGateLoop cfg key defaultValue l = slackGateLoop cfg key defaultValue l'.
Proof.
  induction 1 as [|x l l' _ IH|x y l|l l' l'' _ IH _ IH']; cbn.
  - done.
  - by rewrite IH.
  - by repeat case_match.
  - by etrans.
Qed.

Lemma slackGateLoop_ext (cfg cfg' : ClawdbotConfig) (key : string)
    (defaultValue : bool) (l : list Slack.Account) :
  slack cfg ≫= Slack.cfgActions = slack cfg' ≫= Slack.cfgActions →
  slackGateLoop cfg key defaultValue l = slackGateLoop cfg' key defaultValue l.
Proof. intros E. induction l as [|a l IH]; cbn; [done|]. by rewrite E, IH. Qed.

(** What the builder reads from the Discord section is the same on both
    sides. *)
Lemma discord_view (c c' : ClawdbotConfig) :
  sameUpToAccountOrder c c' →
  discord c ≫= Discord.actions = discord c' ≫= Discord.actions
  ∧ List.length
      (List.filter (fun account => negb (Discord.tokenSource account =? "none")%string)
                   (listEnabledDiscordAccounts c))
    = List.length
        (List.filter (fun account => negb (Discord.tokenSource account =? "none")%string)
                     (listEnabledDiscordAccounts c')).
Proof.
  intros [Hd _ _ _ _]. unfold listEnabledDiscordAccounts.
  destruct Hd as [d d' [Ha Hp]|]; cbn; [|done]. split; [by rewrite Ha|].
  apply Permutation_length. by do 2 apply filter_Permutation_bool.
Qed.

Lemma slack_view (c c' : ClawdbotConfig) :
  sameUpToAccountOrder c c' →
  slack c ≫= Slack.cfgActions = slack c' ≫= Slack.cfgActions
  ∧ List.filter (fun account => negb (Slack.botTokenSource account =? "none")%string)
                (listEnabledSlackAccounts c)
    ≡ₚ List.filter (fun account => negb (Slack.botTokenSource account =? "none")%string)
                   (listEnabledSlackAccounts c').
Proof.
  intros [_ Hs _ _ _]. unfold listEnabledSlackAccounts.
  destruct Hs as [s s' [Ha Hp]|]; cbn; [|done]. split; [by rewrite Ha|].
  by do 2 apply filter_Permutation_bool.
Qed.

Lemma telegram_view (c c' : ClawdbotConfig) :
  sameUpToAccountOrder c c' →
  telegram c ≫= Telegram.actions = telegram c' ≫= Telegram.actions
  ∧ List.length
      (List.filter (fun account => negb (Telegram.tokenSource account =? "none")%string)
                   (listEnabledTelegramAccounts c))
    = List.length
        (List.filter (fun account => negb (Telegram.tokenSource account =? "none")%string)
                     (listEnabledTelegramAccounts c')).
Proof.
  intros [_ _ Ht _ _]. unfold listEnabledTelegramAccounts.
  destruct Ht as [t t' (Ha & _ & Hp)|]; cbn; [|done]. split; [by rewrite Ha|].
  destruct Hp as [l l' Hp|]; [|done].
  apply Permutation_length. by do 2 apply filter_Permutation_bool.
Qed.

Lemma whatsapp_view (c c' : ClawdbotConfig) :
  sameUpToAccountOrder c c' →
  whatsapp c ≫= WhatsApp.actions = whatsapp c' ≫= WhatsApp.actions
  ∧ (whatsapp c = None ↔ whatsapp c' = None).
Proof.
  intros [_ _ _ Hw _]. by destruct Hw as [w w' [Ha _]|].
Qed.

(** C8.  Two snapshots that differ only in the order of their provider
    account lists have the same catalog (even as an array, since the order of
    insertion does not depend on the accounts). *)
Theorem catalog_account_order_independent (c c' : ClawdbotConfig) :
  sameUpToAccountOrder c c' →
  buildMessageActionList c = buildMessageActionList c'.
Proof.
  intros H.
  destruct (discord_view c c' H) as [Eda Edl].
  destruct (slack_view c c' H) as [Esa Esl].
  destruct (telegram_view c c' H) as [Eta Etl].
  destruct (whatsapp_view c c' H) as [Ewa Ews].
  assert (Em : msteams c = msteams c') by apply H.
  assert (Eloop : ∀ key d,
    slackGateLoop c key d
      (List.filter (fun account => negb (Slack.botTokenSource account =? "none")%string)
                   (listEnabledSlackAccounts c))
    = slackGateLoop c' key d
        (List.filter (fun account => negb (Slack.botTokenSource account =? "none")%string)
                     (listEnabledSlackAccounts c'))).
  { intros key d. rewrite (slackGateLoop_Permutation _ _ _ _ _ Esl).
    by apply slackGateLoop_ext. }
  apply Permutation_length in Esl.
  unfold buildMessageActionList. cbv zeta.
  rewrite Eda, Edl, Esl, Eta, Etl, Ewa, Em, !Eloop.
  destruct (whatsapp c), (whatsapp c'); try done; destruct Ews as [E E'];
    [by specialize (E' eq_refl) | by specialize (E eq_refl)].
Qed.

Lemma catalog_account_order_independent_witness :
  sameUpToAccountOrder (slackConfig [slackDenying; slackSilent])
                       (slackConfig [slackSilent; slackDenying])
  ∧ buildMessageActionList (slackConfig [slackDenying; slackSilent])
    = buildMessageActionList (slackConfig [slackSilent; slackDenying]).
Proof.
  assert (H : sameUpToAccountOrder (slackConfig [slackDenying; slackSilent])
                                   (slackConfig [slackSilent; slackDenying])).
  { split; cbn; try constructor. split; [reflexivity | apply perm_swap]. }
  split; [exact H|].
  exact (catalog_account_order_independent _ _ H).
Defined.



(** ** The [buttons] field of the contract *)

Lemma includes_addCapabilities (entries caps : list string) (x : string) :
  includes (addCapabilities entries caps) x = true ↔
    includes caps x = true
    ∨ ∃ entry, entry ∈ entries ∧ nonEmpty (trim entry) = true
               ∧ toLowerCase (trim entry) = x.
Proof.
  revert caps. induction entries as [|e entries IH]; intros caps; cbn [addCapabilities].
  - split; [by left | intros [?|(? & Hin & _)]; [done|]].
    by apply not_elem_of_nil in Hin.
  - rewrite IH. split.
    + intros [Hc | (e' & Hin & Hne & Hx)].
      * destruct (nonEmpty (trim e)) eqn:Hne; [|by left].
        rewrite includes_Set_add, orb_true_iff in Hc.
        destruct Hc as [Hx|?]; [|by left].
        apply String.eqb_eq in Hx. right. exists e. by repeat split; [left|..].
      * right. exists e'. by repeat split; [right|..].
    + intros [Hc | (e' & Hin & Hne & Hx)].
      * left. destruct (nonEmpty (trim e)); [|done].
        rewrite includes_Set_add, Hc. apply orb_true_r.
      * apply elem_of_cons in Hin as [->|Hin].
        -- left. rewrite Hne, includes_Set_add, Hx, String.eqb_refl. done.
        -- right. by exists e'.
Qed.

Lemma includes_addAccountCapabilities (accounts : list Telegram.Account)
    (caps : list string) (x : string) :
  includes (addAccountCapabilities accounts caps) x = true ↔
    includes caps x = true
    ∨ ∃ account accountCaps entry,
        account ∈ accounts ∧ Telegram.capabilities account = Some accountCaps
        ∧ entry ∈ accountCaps ∧ nonEmpty (trim entry) = true
        ∧ toLowerCase (trim entry) = x.
Proof.
  revert caps. induction accounts as [|a accounts IH]; intros caps;
    cbn [addAccountCapabilities].
  - split; [by left | intros [?|(? & ? & ? & Hin & _)]; [done|]].
    by apply not_elem_of_nil in Hin.
  - destruct (Telegram.capabilities a) as [l|] eqn:El; rewrite IH.
    + rewrite includes_addCapabilities. split.
      * intros [[?|(e & ? & ? & ?)] | (a' & l' & e & ? & ? & ? & ? & ?)].
        -- by left.
        -- right. exists a, l, e. by repeat split; [left|..].
        -- right. exists a', l', e. by repeat split; [right|..].
      * intros [? | (a' & l' & e & Hin & El' & ? & ? & ?)]; [by do 2 left|].
        apply elem_of_cons in Hin as [->|Hin].
        -- left. right. exists e. rewrite El in El'. by injection El' as ->.
        -- right. by exists a', l', e.
    + split.
      * intros [? | (a' & l' & e & ? & ? & ? & ? & ?)]; [by left|].
        right. exists a', l', e. by repeat split; [right|..].
      * intros [? | (a' & l' & e & Hin & El' & ? & ? & ?)]; [by left|].
        apply elem_of_cons in Hin as [->|Hin]; [congruence|].
        right. by exists a', l', e.
Qed.

Lemma lowered_nonEmpty (s : string) :
  toLowerCase s = "inlinebuttons" → nonEmpty s = true.
Proof. by destruct s. Qed.

(** When [hasTelegramInlineButtons] answers [true]: some entry of the
    provider-level list, or of the list of any configured account, reads
    "inlinebuttons" once trimmed and lowered. *)
Lemma hasTelegramInlineButtons_iff (cfg : ClawdbotConfig) :
  hasTelegramInlineButtons cfg = true ↔
    ∃ entry, toLowerCase (trim entry) = "inlinebuttons"
      ∧ (entry ∈ default [] (telegram cfg ≫= Telegram.cfgCapabilities)
         ∨ ∃ accounts account accountCaps,
             telegram cfg ≫= Telegram.accounts = Some accounts
             ∧ account ∈ accounts
             ∧ Telegram.capabilities account = Some accountCaps
             ∧ entry ∈ accountCaps).
Proof.
  unfold hasTelegramInlineButtons. cbv zeta.
  destruct (telegram cfg ≫= Telegram.accounts) as [accounts|].
  - rewrite includes_addAccountCapabilities, includes_addCapabilities. split.
    + intros [[?|(e & ? & ? & ?)] | (a & l & e & ? & ? & ? & ? & ?)]; [done|..].
      * exists e. split; [done | by left].
      * exists e. split; [done|]. right. by exists accounts, a, l.
    + intros (e & He & [? | (accounts' & a & l & [= <-] & ? & ? & ?)]).
      * left. right. exists e. by repeat split; [|apply lowered_nonEmpty|].
      * right. exists a, l, e. by repeat split; [..|apply lowered_nonEmpty|].
  - rewrite includes_addCapabilities. split.
    + intros [?|(e & ? & ? & ?)]; [done|]. exists e. split; [done | by left].
    + intros (e & He & [? | (? & ? & ? & ? & _)]); [|done].
      right. exists e. by repeat split; [|apply lowered_nonEmpty|].
Qed.

Lemma schema_buttons (actions : list string) (includeButtons : bool) :
  includes actions "send" = true →
  schemaAdvertises "buttons"
    (buildMessageToolSchemaFromActions actions includeButtons) = includeButtons.
Proof.
  intros Hsend. unfold buildMessageToolSchemaFromActions. cbv zeta.
  rewrite Hsend.
  by destruct (0 <? List.length _)%nat, includeButtons.
Qed.

(** C7 (as the spec states it fails).  Of two Telegram accounts, the enabled
    one declares no capability and the disabled one declares inline buttons:
    the contract advertises [buttons], although the capability is on no
    enabled account. *)
Lemma buttons_from_disabled_account :
  schemaAdvertises "buttons" (buildMessageToolSchema telegramStaleButtonsConfig) = true
  ∧ specIncludeButtons telegramStaleButtonsConfig = false.
Proof. split; reflexivity. Qed.

(** C7 (amended).  The contract advertises [buttons] exactly when an enabled
    Telegram account with a token exists and "inlinebuttons" (after trimming
    and lowering) is declared at the provider level or on any configured
    Telegram account, enabled or not; otherwise no shape of the contract has
    the field. *)
Theorem buttons_field_iff (cfg : ClawdbotConfig) :
  schemaAdvertises "buttons" (buildMessageToolSchema cfg) = true ↔
    (∃ account, account ∈ listEnabledTelegramAccounts cfg
                ∧ Telegram.tokenSource account ≠ "none")
    ∧ ∃ entry, toLowerCase (trim entry) = "inlinebuttons"
        ∧ (entry ∈ default [] (telegram cfg ≫= Telegram.cfgCapabilities)
           ∨ ∃ accounts account accountCaps,
               telegram cfg ≫= Telegram.accounts = Some accounts
               ∧ account ∈ accounts
               ∧ Telegram.capabilities account = Some accountCaps
               ∧ entry ∈ accountCaps).
Proof.
  unfold buildMessageToolSchema. cbv zeta.
  rewrite schema_buttons.
  - rewrite andb_true_iff, hasTelegramInlineButtons_iff, existsb_exists.
    apply and_iff_compat_r. split.
    + intros (a & Hin & Ha). exists a. by rewrite list_elem_of_In, <- differs_from_none.
    + intros (a & Hin & Ha). exists a. by rewrite <- list_elem_of_In, differs_from_none.
  - apply catalog_includes_send.
Qed.


(** ** The router *)

Section Router.
Context `{Collaborators}.
Variable options : option MessageToolOptions.

Lemma trace_bind {A B} (m : M A) (k : A → M B) :
  trace (bind m k)
  = trace m ++ match outcome m with inr a => trace (k a) | inl _ => [] end.
Proof.
  destruct m as [t [e|a]]; cbn; [by rewrite app_nil_r|]. by destruct (k a).
Qed.

Lemma outcome_bind {A B} (m : M A) (k : A → M B) :
  outcome (bind m k)
  = match outcome m with inr a => outcome (k a) | inl e => inl e end.
Proof. destruct m as [t [e|a]]; cbn; [done|]. by destruct (k a). Qed.

Lemma execute_after_prelude (args : gmap string value) (tr0 : list Event) (L : Locals) :
  prelude options args = (tr0, inr L) →
  execute options args
  = (tr0 ++ trace (dispatch options L), outcome (dispatch options L)).
Proof.
  intros Hp. unfold execute. rewrite Hp. cbn. by destruct (dispatch options L).
Qed.

(** Every extractor call in the goal is split into its answers. *)
Ltac answer :=
  match goal with
  | |- context [readStringParam ?p ?k ?o] =>
      destruct (readStringParam p k o) as [?|[?|]] eqn:?
  | |- context [readNumberParam ?p ?k ?o] =>
      destruct (readNumberParam p k o) as [?|?] eqn:?
  | |- context [readStringArrayParam ?p ?k ?o] =>
      destruct (readStringArrayParam p k o) as [?|?] eqn:?
  end; cbn.

(** A prelude that came through logged its seven events, the third being
    provider resolution, and filled the locals from the bag. *)
Lemma prelude_ok (args : gmap string value) (tr0 : list Event) (L : Locals) :
  prelude options args = (tr0, inr L) →
  ∃ providerParam selection,
    tr0 = preludeTrace providerParam
    ∧ readStringParam args "action" requiredParam = inr (action L)
    ∧ readStringParam args "provider" optional = inr providerParam
    ∧ resolveMessageProviderSelection
        (default loadConfig (options ≫= config)) providerParam = inr selection
    ∧ resolvedProvider L = provider selection
    ∧ params L = args
    ∧ dryRun L = truthy (getProp args "dryRun").
Proof.
  unfold prelude, readString, readNumber, call, bind. cbv zeta.
  destruct (readStringParam args "action" requiredParam) as [?|a] eqn:Ea; [done|].
  destruct (readStringParam args "provider" optional) as [?|p] eqn:Ep; [done|].
  destruct (resolveMessageProviderSelection _ p) as [?|s] eqn:Es; [done|].
  destruct (readStringParam args "accountId" optional) as [?|?]; [done|].
  destruct (readStringParam args "gatewayUrl" untrimmed) as [?|?]; [done|].
  destruct (readStringParam args "gatewayToken" untrimmed) as [?|?]; [done|].
  destruct (readNumberParam args "timeoutMs" _) as [?|?]; [done|].
  cbn. intros [= <- <-]. exists p, s. by rewrite Es.
Qed.

(** Whatever the prelude does, it calls neither a sender nor a handler. *)
Lemma prelude_dispatches (args : gmap string value) :
  dispatches (trace (prelude options args)) = [].
Proof.
  unfold prelude, readString, readNumber, call, bind. cbv zeta.
  destruct (readStringParam args "action" requiredParam) as [?|a]; [done|].
  destruct (readStringParam args "provider" optional) as [?|p]; [done|].
  destruct (resolveMessageProviderSelection _ p) as [?|s]; [done|].
  destruct (readStringParam args "accountId" optional) as [?|?]; [done|].
  destruct (readStringParam args "gatewayUrl" untrimmed) as [?|?]; [done|].
  destruct (readStringParam args "gatewayToken" untrimmed) as [?|?]; [done|].
  by destruct (readNumberParam args "timeoutMs" _) as [?|?].
Qed.

Lemma dispatches_app (t t' : list Event) :
  dispatches (t ++ t') = dispatches t ++ dispatches t'.
Proof. unfold dispatches. apply List.filter_app. Qed.

Lemma dispatches_handlers (t : list Event) :
  dispatches t = [] → Forall (fun e => isProviderHandler e = false) t.
Proof.
  unfold dispatches. induction t as [|e t IH]; cbn; [constructor|].
  destruct (isProviderHandler e) eqn:Eh; cbn; [done|].
  destruct (isGenericSend e); [done|]. intros Ht. constructor; auto.
Qed.



Lemma generic_dispatch_handlers (t : list Event) :
  dispatches t = [] ∨ (∃ e, dispatches t = [e] ∧ is_Some (sentDryRun e)) →
  Forall (fun e => isProviderHandler e = false) t.
Proof.
  intros Ht. apply Forall_forall. intros e He.
  destruct (isProviderHandler e) eqn:Eh; [|done]. exfalso.
  assert (Hd : e ∈ dispatches t).
  { unfold dispatches. apply elem_of_filter_bool. by rewrite Eh. }
  destruct Ht as [Ht | (e' & Ht & Hg)]; rewrite Ht in Hd.
  - by apply not_elem_of_nil in Hd.
  - apply list_elem_of_singleton in Hd as ->. destruct e'; try done;
      by apply is_Some_None in Hg.
Qed.

(** The test [action === name] on a known action name. *)
Ltac choose_branch Haction :=
  unfold dispatch; rewrite Haction;
  lazy beta iota zeta delta [actionIs String.eqb Ascii.eqb Bool.eqb orb].



Lemma provider_outside (L : Locals) (providers : list string) :
  resolvedProvider L ∉ providers →
  Forall (fun p => providerIs L p = false) providers.
Proof.
  intros Hout. apply Forall_forall. intros p Hp. unfold providerIs.
  destruct (String.eqb_spec (resolvedProvider L) p) as [E|]; [|done].
  by rewrite E in Hout.
Qed.

(** C10.  "send" without dry run, on a resolved provider other than discord,
    slack and telegram: no provider-specific handler is invoked; and once the
    branch's parameters are extracted, the one call made is to [sendMessage],
    with the extracted target, content and media, the provider, the account
    and the gateway, and its answer is the answer of the call. *)
Theorem send_falls_back_to_generic (args : gmap string value)
    (tr0 : list Event) (L : Locals) :
  prelude options args = (tr0, inr L) →
  action L = Some "send" →
  dryRun L = false →
  resolvedProvider L ∉ ["discord"; "slack"; "telegram"] →
  Forall (fun e => isProviderHandler e = false) (trace (execute options args))
  ∧ ∀ to message mediaUrl replyTo threadId,
      readStringParam args "to" requiredParam = inr to →
      readStringParam args "message" requiredAllowEmpty = inr message →
      readStringParam args "media" untrimmed = inr mediaUrl →
      readStringParam args "replyTo" optional = inr replyTo →
      readStringParam args "threadId" optional = inr threadId →
      let generic :=
        {| MessageSend.to := to;
           MessageSend.content := message;
           MessageSend.mediaUrl := orUndefined mediaUrl;
           MessageSend.provider := orUndefined (Some (resolvedProvider L));
           MessageSend.accountId := accountId L;
           MessageSend.gifPlayback :=
             match getProp args "gifPlayback" with VBool b => b | _ => false end;
           MessageSend.dryRun := false;
           MessageSend.bestEffort := booleanOrUndefined (getProp args "bestEffort");
           MessageSend.gateway := gateway L |} in
      execute options args
      = (tr0 ++ [ Extract StringParam "to"; Extract StringParam "message";
                  Extract StringParam "media"; Extract StringParam "replyTo";
                  Extract StringParam "threadId"; SendMessage generic ],
         match sendMessage generic with
         | inl e => inl e
         | inr result => inr (jsonResult result)
         end).
Proof.
  intros Hp Ha Hdry Hout.
  destruct (prelude_ok _ _ _ Hp) as (hint & sel & _ & _ & _ & _ & _ & Hparams & _).
  apply provider_outside in Hout.
  apply Forall_cons in Hout as [Ed Hout]. apply Forall_cons in Hout as [Es Hout].
  apply Forall_cons in Hout as [Et _].
  assert (H0 : dispatches tr0 = []).
  { pose proof (prelude_dispatches args) as Hd. by rewrite Hp in Hd. }
  rewrite (execute_after_prelude _ _ _ Hp). choose_branch Ha.
  unfold sendBranch, readString, call, bind. cbv zeta.
  rewrite Hdry, Ed, Es, Et, Hparams. split.
  - apply generic_dispatch_handlers. cbn [trace fst]. rewrite dispatches_app, H0.
    repeat answer; try by left.
    all: destruct (sendMessage _); cbn; right; eauto.
  - intros to message mediaUrl replyTo threadId -> -> -> -> ->. cbn.
    by destruct (sendMessage _).
Qed.

(** The guard of a Discord-only branch fires before anything is read. *)
Lemma discordOnly_guard (L : Locals) (name : string) :
  action L = Some name →
  name ∈ discordOnlyActions →
  providerIs L "discord" = false →
  ∃ message, dispatch options L = ([], inl (UnsupportedActionForProvider message)).
Proof.
  intros Ha Hin Hd. unfold discordOnlyActions in Hin.
  repeat (apply elem_of_cons in Hin as [->|Hin]);
    [..|by apply not_elem_of_nil in Hin];
    choose_branch Ha;
    unfold permissionsBranch, threadCreateBranch, threadListBranch,
      threadReplyBranch, searchBranch, stickerBranch, roleInfoBranch,
      emojiUploadBranch, stickerUploadBranch, roleChangeBranch,
      channelInfoBranch, channelListBranch, voiceStatusBranch,
      eventListBranch, eventCreateBranch, moderationBranch, onlyDiscord;
    rewrite Hd; cbn; eauto.
Qed.

Lemma emojiList_guard (L : Locals) :
  action L = Some "emoji-list" →
  providerIs L "discord" = false →
  providerIs L "slack" = false →
  ∃ message, dispatch options L = ([], inl (UnsupportedActionForProvider message)).
Proof.
  intros Ha Hd Hs. choose_branch Ha. unfold emojiListBranch.
  rewrite Hd, Hs. eauto.
Qed.

Ltac settle_failure :=
  eexists; split; [reflexivity|]; split; [done|];
  split; [by repeat constructor|];
  first [ by left | right; unfold extractorAnswered; eauto 6 ].

Lemma extractFirst_order (L : Locals) (name : string) :
  action L = Some name →
  name ∈ extractFirstActions →
  providerIs L "discord" = false →
  providerIs L "slack" = false →
  (name = "react" → providerIs L "telegram" = false ∧ providerIs L "whatsapp" = false) →
  failsAfterExtraction L (dispatch options L).
Proof.
  intros Ha Hin Hd Hs Hreact. unfold extractFirstActions in Hin.
  repeat (apply elem_of_cons in Hin as [->|Hin]);
    [..|by apply not_elem_of_nil in Hin];
    choose_branch Ha;
    unfold failsAfterExtraction, reactBranch, reactionsBranch, readBranch,
      editBranch, deleteBranch, pinsBranch, memberInfoBranch, resolveChannelId,
      readString, readNumber, call, bind, ret, throw;
    rewrite ?Ha; try (destruct (Hreact eq_refl) as [-> ->]);
    rewrite Hd, Hs; cbn;
    repeat answer; settle_failure.
Qed.

(** C2 (amended).  On a resolved provider outside the set an action serves:
    the prelude has read the action name, the provider, the account and the
    gateway; then, for the Discord-only actions and for "emoji-list", the
    call fails with the unsupported-provider failure and extracts nothing
    more; for the actions that read their shared parameters first, the call
    fails after at least one extraction and without any sender or handler,
    with the unsupported-provider failure unless an extractor failed
    before. *)
Theorem unsupported_provider_guard_order (args : gmap string value)
    (tr0 : list Event) (L : Locals) (name : string) (providers : list string) :
  prelude options args = (tr0, inr L) →
  action L = Some name →
  allowedProviders name = Some providers →
  resolvedProvider L ∉ providers →
  (∃ providerParam, tr0 = preludeTrace providerParam)
  ∧ (name ∈ "emoji-list" :: discordOnlyActions →
     ∃ message,
       execute options args = (tr0, inl (UnsupportedActionForProvider message)))
  ∧ (name ∈ extractFirstActions →
     ∃ e t, execute options args = (tr0 ++ t, inl e)
            ∧ t ≠ []
            ∧ Forall (fun ev => isExtraction ev = true) t
            ∧ (isUnsupported e = true ∨ extractorAnswered args e)).
Proof.
  intros Hp Ha Hallowed Hout.
  destruct (prelude_ok _ _ _ Hp) as (hint & sel & Htr & _ & _ & _ & _ & Hparams & _).
  apply provider_outside in Hout.
  rewrite (execute_after_prelude _ _ _ Hp).
  split; [by exists hint|]. split.
  - intros Hin. apply elem_of_cons in Hin as [->|Hin].
    + injection Hallowed as <-.
      apply Forall_cons in Hout as [Ed Hout]. apply Forall_cons in Hout as [Es _].
      destruct (emojiList_guard L Ha Ed Es) as [message ->].
      exists message. cbn. by rewrite app_nil_r.
    + assert (Ed : providerIs L "discord" = false).
      { unfold discordOnlyActions in Hin.
        repeat (apply elem_of_cons in Hin as [->|Hin]);
          [..|by apply not_elem_of_nil in Hin];
          injection Hallowed as <-; by apply Forall_cons in Hout as [Ed _]. }
      destruct (discordOnly_guard L name Ha Hin Ed) as [message ->].
      exists message. cbn. by rewrite app_nil_r.
  - intros Hin.
    assert (Hf : failsAfterExtraction L (dispatch options L)).
    { apply (extractFirst_order L name Ha Hin); unfold extractFirstActions in Hin;
        repeat (apply elem_of_cons in Hin as [->|Hin]);
        try (by apply not_elem_of_nil in Hin);
        injection Hallowed as <-;
        repeat (apply Forall_cons in Hout as [? Hout]); done. }
    destruct Hf as (e & He & Hne & Hex & Hwhy).
    exists e, (trace (dispatch options L)). rewrite He, <- Hparams. done.
Qed.

(** C3 (amended).  For an action name that has no branch, provider
    resolution comes first: when it fails, the call fails with that failure;
    when the prelude comes through, the call fails with the unknown-action
    failure, having called neither a sender nor a handler. *)
Theorem unknown_action_after_resolution (args : gmap string value)
    (requested : option string) (providerParam : option string) :
  readStringParam args "action" requiredParam = inr requested →
  readStringParam args "provider" optional = inr providerParam →
  (∀ name, requested = Some name → name ∉ AllMessageActions) →
  (∀ e, resolveMessageProviderSelection
          (default loadConfig (options ≫= config)) providerParam = inl e →
        execute options args
        = ([ Extract StringParam "action"; Extract StringParam "provider";
             ResolveProvider providerParam ], inl e))
  ∧ (∀ tr0 L, prelude options args = (tr0, inr L) →
              tr0 = preludeTrace providerParam
              ∧ execute options args
                = (tr0, inl (UnknownAction
                               ("Unknown action: " +:+ templateText requested)))).
Proof.
  intros Ea Ep Hunknown. split.
  - intros e Hres. unfold execute, prelude, readString, call, bind. cbv zeta.
    by rewrite Ea, Ep, Hres.
  - intros tr0 L Hp.
    destruct (prelude_ok _ _ _ Hp) as (hint & sel & Htr & Ea' & Ep' & _).
    rewrite Ea in Ea'. rewrite Ep in Ep'.
    injection Ea' as Ea'. injection Ep' as <-. split; [done|].
    rewrite (execute_after_prelude _ _ _ Hp).
    assert (Hf : Forall (fun known => actionIs (action L) known = false)
                        AllMessageActions).
    { apply Forall_forall. intros known Hk. unfold actionIs. rewrite <- Ea'.
      destruct requested as [name|]; [|done].
      destruct (String.eqb_spec name known) as [->|]; [|done].
      by destruct (Hunknown known eq_refl). }
    unfold AllMessageActions in Hf.
    unfold dispatch. cbv zeta.
    repeat (apply Forall_cons in Hf as [-> Hf]).
    cbn. by rewrite app_nil_r, Ea'.
Qed.
End Router.



(** C2 (as the spec states it fails).  "react" serves four providers and
    Signal is not one of them.  Without [messageId] the call fails in the
    extractor, not with the unsupported-provider failure; with it, the
    unsupported-provider failure comes after [messageId] and [emoji] were
    extracted. *)
Lemma react_extracts_before_eligibility :
  allowedProviders "react" = Some ["discord"; "slack"; "telegram"; "whatsapp"]
  ∧ ("signal" ∉ ["discord"; "slack"; "telegram"; "whatsapp"])
  ∧ @execute testCollaborators None reactOnSignalArgs
    = (preludeTrace (Some "signal") ++ [Extract StringParam "messageId"],
       inl (MissingRequiredParameter "messageId"))
  ∧ @execute testCollaborators None reactOnSignalFullArgs
    = (preludeTrace (Some "signal")
         ++ [Extract StringParam "messageId"; Extract StringParam "emoji"],
       inl (UnsupportedActionForProvider
              "React is not supported for provider signal.")).
Proof.
  split; [reflexivity|]. split; [|split; reflexivity].
  intros Hin. by repeat (apply elem_of_cons in Hin as [?|Hin]);
    [..|apply not_elem_of_nil in Hin].
Qed.

Lemma unsupported_provider_guard_order_witness :
  allowedProviders "permissions" = Some ["discord"]
  ∧ ("slack" ∉ ["discord"])
  ∧ ∃ message,
      @execute testCollaborators None permissionsOnSlackArgs
      = (preludeTrace (Some "slack"), inl (UnsupportedActionForProvider message)).
Proof.
  assert (Hout : "slack" ∉ ["discord"]).
  { intros Hin. by repeat (apply elem_of_cons in Hin as [?|Hin]);
      [..|apply not_elem_of_nil in Hin]. }
  split; [reflexivity|]. split; [exact Hout|].
  refine (proj1 (proj2 (@unsupported_provider_guard_order testCollaborators None
            permissionsOnSlackArgs (preludeTrace (Some "slack")) _
            "permissions" ["discord"] _ _ _ _)) _);
    [reflexivity | reflexivity | reflexivity | exact Hout |].
  apply elem_of_cons. right. apply elem_of_cons. by left.
Defined.

(** C3 (as the spec states it fails).  "bogus" is not an action.  With an
    explicit provider, the unknown-action failure comes after provider
    resolution was invoked; without one and with two providers enabled, the
    call fails in provider resolution and never reports the unknown
    action. *)
Lemma unknown_action_resolves_provider :
  ("bogus" ∉ AllMessageActions)
  ∧ @execute testCollaborators None bogusArgs
    = (preludeTrace (Some "discord"), inl (UnknownAction "Unknown action: bogus"))
  ∧ ResolveProvider (Some "discord")
    ∈ trace (@execute testCollaborators None bogusArgs)
  ∧ @execute testCollaborators (toolOptions twoProvidersConfig) bogusNoProviderArgs
    = ([ Extract StringParam "action"; Extract StringParam "provider";
         ResolveProvider None ],
       inl (ProviderResolutionFailure "provider is ambiguous")).
Proof.
  split; [|split; [reflexivity | split; [|reflexivity]]].
  - intros Hin. unfold AllMessageActions in Hin.
    by repeat (apply elem_of_cons in Hin as [?|Hin]);
      [..|apply not_elem_of_nil in Hin].
  - apply list_elem_of_In. cbn. do 2 right. by left.
Qed.

Lemma unknown_action_after_resolution_witness :
  @readStringParam testCollaborators bogusArgs "action" requiredParam
    = inr (Some "bogus")
  ∧ @execute testCollaborators None bogusArgs
    = (preludeTrace (Some "discord"), inl (UnknownAction "Unknown action: bogus")).
Proof.
  split; [reflexivity|].
  refine (proj2 (proj2 (@unknown_action_after_resolution testCollaborators None
            bogusArgs (Some "bogus") (Some "discord") _ _ _) _ _ _));
    [reflexivity | reflexivity | | reflexivity].
  intros name [= <-] Hin. unfold AllMessageActions in Hin.
  by repeat (apply elem_of_cons in Hin as [?|Hin]);
    [..|apply not_elem_of_nil in Hin].
Defined.

Lemma send_falls_back_to_generic_witness :
  ("signal" ∉ ["discord"; "slack"; "telegram"])
  ∧ Forall (fun e => isProviderHandler e = false)
      (trace (@execute testCollaborators None sendOnSignalArgs))
  ∧ dispatches (trace (@execute testCollaborators None sendOnSignalArgs))
    = [ SendMessage
          {| MessageSend.to := Some "+15550100";
             MessageSend.content := Some "hi";
             MessageSend.mediaUrl := Some "https://example.org/a.png";
             MessageSend.provider := Some "signal";
             MessageSend.accountId := None;
             MessageSend.gifPlayback := false;
             MessageSend.dryRun := false;
             MessageSend.bestEffort := None;
             MessageSend.gateway :=
               {| url := None; token := None; timeoutMs := None;
                  clientName := "agent"; mode := "agent" |} |} ].
Proof.
  assert (Hout : "signal" ∉ ["discord"; "slack"; "telegram"]).
  { intros Hin. by repeat (apply elem_of_cons in Hin as [?|Hin]);
      [..|apply not_elem_of_nil in Hin]. }
  split; [exact Hout|].
  split; [|reflexivity].
  refine (proj1 (@send_falls_back_to_generic testCollaborators None
            sendOnSignalArgs _ _ _ _ _ _));
    [reflexivity | reflexivity | reflexivity | exact Hout].
Defined.

(** * Further properties *)

(** ** The catalog as a set of known actions *)

Lemma Set_add_NoDup (x : string) (s : list string) :
  NoDup s → NoDup (Set_add x s).
Proof.
  intros Hs. unfold Set_add. destruct (includes s x) eqn:Hx; [done|].
  apply NoDup_app. split; [done|]. split; [|apply NoDup_singleton].
  intros y Hy Hy'. apply list_elem_of_singleton in Hy' as ->.
  apply includes_true in Hy. congruence.
Qed.

Lemma Set_add_elem (x y : string) (s : list string) :
  y ∈ Set_add x s ↔ y = x ∨ y ∈ s.
Proof.
  rewrite <- !includes_true, includes_Set_add, orb_true_iff.
  by rewrite String.eqb_eq.
Qed.

Lemma Set_add_head (x : string) (s : list string) :
  s ≠ [] → head (Set_add x s) = head s.
Proof. unfold Set_add. destruct (includes s x), s; done. Qed.

Lemma invariant_add (x : string) (s : list string) :
  includes AllMessageActions x = true →
  catalogInvariant s → catalogInvariant (Set_add x s).
Proof.
  intros Hx (Hnd & Hall & Hhd). repeat split.
  - by apply Set_add_NoDup.
  - apply Forall_forall. intros y Hy. apply Set_add_elem in Hy as [->|Hy].
    + by apply includes_true.
    + by eapply Forall_forall in Hall.
  - rewrite Set_add_head; [done|]. by destruct s.
Qed.

Lemma invariant_when (c : bool) (body : list string → list string)
    (s : list string) :
  (∀ s', catalogInvariant s' → catalogInvariant (body s')) →
  catalogInvariant s → catalogInvariant (when c body s).
Proof. intros Hbody Hs. unfold when. destruct c; auto. Qed.

Lemma catalog_invariant (cfg : ClawdbotConfig) :
  catalogInvariant (buildMessageActionList cfg).
Proof.
  unfold buildMessageActionList. cbv zeta.
  repeat (apply invariant_when;
          [intros s' Hs'; repeat (apply invariant_add; [reflexivity|]); exact Hs'|]).
  repeat split; [apply NoDup_singleton|].
  apply Forall_singleton. by apply includes_true.
Qed.

(** X1.  The catalog is a duplicate-free list of known action names that
    starts with "send". *)
Theorem catalog_known_actions (cfg : ClawdbotConfig) :
  NoDup (buildMessageActionList cfg)
  ∧ buildMessageActionList cfg ⊆ AllMessageActions
  ∧ head (buildMessageActionList cfg) = Some "send".
Proof.
  destruct (catalog_invariant cfg) as (Hnd & Hall & Hhd).
  split; [done|]. split; [|done]. intros name Hname.
  by eapply Forall_forall in Hall.
Qed.

(** ** The contract follows the catalog *)

Lemma literals_of_actions (names : list string) :
  flat_map (fun a => match a with TLiteral lit => [lit] | _ => [] end)
           (map TLiteral names) = names.
Proof. induction names as [|n names IH]; cbn; [done|]. by rewrite IH. Qed.

Lemma commonSchema_no_action (includeButtons : bool) :
  flat_map (fun p => if (fst p =? "action")%string then literalsOf (snd p) else [])
    (if negb includeButtons
     then deleteProp "buttons" MessageToolCommonSchema
     else MessageToolCommonSchema) = [].
Proof. by destruct includeButtons. Qed.

(** The names the contract accepts, for any list of actions: "send" first
    when it is there, then the others in their order. *)
Lemma advertisedActions_fromActions (actions : list string) (includeButtons : bool) :
  advertisedActions (buildMessageToolSchemaFromActions actions includeButtons)
  = (if includes actions "send" then ["send"] else [])
    ++ List.filter (fun action => negb (action =? "send")%string) actions.
Proof.
  unfold buildMessageToolSchemaFromActions. cbv zeta.
  pose proof (commonSchema_no_action includeButtons) as Hcommon.
  set (props := if negb includeButtons then _ else _) in *.
  set (others := List.filter _ actions).
  destruct (includes actions "send"), others as [|o others'] eqn:Eo;
    cbn [List.length Nat.ltb Nat.leb app advertisedActions shapes flat_map
         shapeActions fst snd String.eqb Ascii.eqb Bool.eqb literalsOf];
    rewrite ?Hcommon, ?app_nil_r; try done.
  - by rewrite (literals_of_actions (o :: others')).
  - by rewrite (literals_of_actions (o :: others')).
Qed.

Lemma filter_not_in (x : string) (l : list string) :
  x ∉ l → List.filter (fun y => negb (y =? x)%string) l = l.
Proof.
  induction l as [|y l IH]; [done|]. intros Hx. cbn.
  apply not_elem_of_cons in Hx as [Hne Hx].
  destruct (String.eqb_spec y x) as [->|]; [done|]. cbn. by rewrite IH.
Qed.

(** X2.  The contract built from a configuration accepts exactly the
    actions of its catalog, in the order of the catalog. *)
Theorem schema_advertises_catalog (cfg : ClawdbotConfig) :
  advertisedActions (buildMessageToolSchema cfg) = buildMessageActionList cfg.
Proof.
  unfold buildMessageToolSchema. cbv zeta.
  rewrite advertisedActions_fromActions, catalog_includes_send.
  destruct (catalog_invariant cfg) as (Hnd & _ & Hhd).
  destruct (buildMessageActionList cfg) as [|first rest]; [done|].
  injection Hhd as ->. apply NoDup_cons in Hnd as [Hnotin _].
  cbn. by rewrite filter_not_in.
Qed.

Lemma commonSchema_all_optional (includeButtons : bool) :
  List.filter (fun p => negb (isOptional (snd p)))
    (if negb includeButtons
     then deleteProp "buttons" MessageToolCommonSchema
     else MessageToolCommonSchema) = [].
Proof. by destruct includeButtons. Qed.

(** X3.  Whatever the actions: a shape of the contract is either the "send"
    shape, which requires [action], [to] and [message], or the shape of the
    other actions, which requires [action] alone; every other property is
    optional in both. *)
Theorem schema_required_fields (actions : list string) (includeButtons : bool) :
  (shapes (buildMessageToolSchemaFromActions actions includeButtons) = []
   ↔ actions = [])
  ∧ Forall (fun shape =>
            (shapeActions shape = ["send"]
             ∧ requiredFields shape = ["action"; "to"; "message"])
            ∨ (("send" ∉ shapeActions shape)
               ∧ shapeActions shape ≠ []
               ∧ requiredFields shape = ["action"]))
         (shapes (buildMessageToolSchemaFromActions actions includeButtons)).
Proof.
  split.
  { unfold buildMessageToolSchemaFromActions. cbv zeta.
    destruct actions as [|first rest]; [done|]. cbn [includes existsb List.filter].
    destruct (String.eqb_spec first "send") as [->|Hne].
    - cbn. by destruct (List.filter _ rest).
    - assert ((first =? "send")%string = false) as E by by apply String.eqb_neq.
      rewrite String.eqb_sym in E. rewrite E. cbn.
      by destruct (existsb _ rest). }
  unfold buildMessageToolSchemaFromActions. cbv zeta.
  pose proof (commonSchema_no_action includeButtons) as Hcommon.
  pose proof (commonSchema_all_optional includeButtons) as Hopt.
  set (props := if negb includeButtons then _ else _) in *.
  assert (Hothers : "send" ∉ List.filter (fun a => negb (a =? "send")%string) actions).
  { intros Hin. apply elem_of_filter_bool in Hin as [_ Hne]. done. }
  set (others := List.filter _ actions) in *.
  assert (Hsend : shapeActions
            (TObject (("action", TLiteral "send") :: ("to", TString)
                      :: ("message", TString) :: props)) = ["send"]
          ∧ requiredFields
              (TObject (("action", TLiteral "send") :: ("to", TString)
                        :: ("message", TString) :: props))
            = ["action"; "to"; "message"]).
  { cbn. by rewrite Hcommon, Hopt. }
  assert (Hrest : ∀ o others',
            others = o :: others' →
            ("send" ∉ shapeActions
              (TObject (("action", TUnion (map TLiteral others))
                        :: ("to", TOptional TString)
                        :: ("message", TOptional TString) :: props)))
            ∧ shapeActions
                (TObject (("action", TUnion (map TLiteral others))
                          :: ("to", TOptional TString)
                          :: ("message", TOptional TString) :: props)) ≠ []
            ∧ requiredFields
                (TObject (("action", TUnion (map TLiteral others))
                          :: ("to", TOptional TString)
                          :: ("message", TOptional TString) :: props))
              = ["action"]).
  { intros o others' Eo. cbn. rewrite Hcommon, Hopt, app_nil_r.
    rewrite literals_of_actions. split; [done|]. split; [|done]. by rewrite Eo. }
  destruct (includes actions "send"), others as [|o others'] eqn:Eo;
    cbn [List.length Nat.ltb Nat.leb app shapes].
  - apply Forall_singleton. left. exact Hsend.
  - apply Forall_cons. split; [left; exact Hsend|].
    apply Forall_singleton. right. exact (Hrest o others' eq_refl).
  - by apply Forall_nil.
  - apply Forall_singleton. right. exact (Hrest o others' eq_refl).
Qed.

(** ** Who stands behind a catalogued action *)

Lemma slackGateLoop_true (cfg : ClawdbotConfig) (key : string) (d : bool)
    (l : list Slack.Account) :
  slackGateLoop cfg key d l = true ↔
    ∃ account, account ∈ l
      ∧ createActionGate
          (match Slack.actions account with
           | Some a => Some a
           | None => slack cfg ≫= Slack.cfgActions
           end) key d = true.
Proof.
  induction l as [|a l IH]; cbn.
  - split; [done | intros (? & Hin & _)]. by apply not_elem_of_nil in Hin.
  - destruct (createActionGate _ key d) eqn:Eg.
    + split; [|done]. intros _. exists a. split; [by left | done].
    + rewrite IH. split.
      * intros (a' & Hin & Hg). exists a'. split; [by right | done].
      * intros (a' & Hin & Hg). apply elem_of_cons in Hin as [->|Hin].
        -- congruence.
        -- by exists a'.
Qed.

(** [isSlackActionEnabled(key, defaultValue)], as a statement about the
    accounts. *)
Lemma isSlackActionEnabled_iff (cfg : ClawdbotConfig) (key : string) (d : bool) :
  (if negb (0 <? List.length
                   (List.filter
                      (fun account => negb (Slack.botTokenSource account =? "none")%string)
                      (listEnabledSlackAccounts cfg)))%nat
   then false
   else slackGateLoop cfg key d
          (List.filter
             (fun account => negb (Slack.botTokenSource account =? "none")%string)
             (listEnabledSlackAccounts cfg))) = true
  ↔ slackGrants cfg key d.
Proof.
  unfold slackGrants.
  set (F := List.filter _ (listEnabledSlackAccounts cfg)).
  assert (Hloop : slackGateLoop cfg key d F = true ↔
    ∃ account, account ∈ listEnabledSlackAccounts cfg
      ∧ Slack.botTokenSource account ≠ "none"
      ∧ createActionGate
          (match Slack.actions account with
           | Some a => Some a
           | None => slack cfg ≫= Slack.cfgActions
           end) key d = true).
  { rewrite slackGateLoop_true. split; intros (a & Ha & Hg).
    - apply elem_of_filter_bool in Ha as [Hin Htok]. exists a.
      by rewrite <- differs_from_none.
    - destruct Hg as [Htok Hg]. exists a. split; [|done].
      apply elem_of_filter_bool. by rewrite differs_from_none. }
  destruct F as [|a F']; cbn [List.length Nat.ltb Nat.leb negb]; [|done].
  rewrite <- Hloop. done.
Qed.

Lemma slackGrants_configured (cfg : ClawdbotConfig) (key : string) (d : bool) :
  slackGrants cfg key d → providerConfigured cfg "slack".
Proof.
  intros (a & Hin & Htok & _). right. left. split; [done|]. by exists a.
Qed.

(** The conditions of the builder, read as statements. *)
Ltac read_conditions :=
  rewrite ?orb_true_iff, ?andb_true_iff, ?discordEnabled_iff,
    ?isSlackActionEnabled_iff.

(** X5.  For the families that Discord and Slack share ("reactions";
    read, edit, delete; pin, unpin, list-pins), an action is in the catalog
    exactly when Discord is enabled and its gate grants the family's key, or
    some enabled Slack account grants it, the account's own [actions] map
    deciding when it has one and the provider-level map otherwise. *)
Theorem shared_families_iff (cfg : ClawdbotConfig) :
  Forall (fun family =>
            Forall (fun name =>
                      name ∈ buildMessageActionList cfg
                      ↔ discordGrants cfg (fst family) true
                        ∨ slackGrants cfg (fst family) true)
                   (snd family))
         sharedFamilies.
Proof.
  unfold sharedFamilies, discordGrants.
  repeat (apply List.Forall_cons || apply List.Forall_nil);
    cbn [fst snd]; rewrite <- includes_true; catalog_membership;
    by read_conditions.
Qed.

(** X6.  Listing reactions is never offered without toggling them:
    "reactions" in the catalog brings "react" along. *)
Theorem reactions_implies_react (cfg : ClawdbotConfig) :
  "reactions" ∈ buildMessageActionList cfg → "react" ∈ buildMessageActionList cfg.
Proof.
  rewrite <- !includes_true. catalog_membership.
  intros Hlist. by rewrite Hlist.
Qed.

Lemma reactions_implies_react_witness :
  "reactions" ∈ buildMessageActionList (slackConfig [slackSilent])
  ∧ "react" ∈ buildMessageActionList (slackConfig [slackSilent]).
Proof.
  assert (H : "reactions" ∈ buildMessageActionList (slackConfig [slackSilent])).
  { by apply includes_true. }
  split; [exact H|].
  exact (reactions_implies_react (slackConfig [slackSilent]) H).
Defined.

Lemma telegramEnabled_iff (cfg : ClawdbotConfig) :
  (0 <? List.length
          (List.filter (fun account => negb (Telegram.tokenSource account =? "none")%string)
                       (listEnabledTelegramAccounts cfg)))%nat = true
  ↔ ∃ account, account ∈ listEnabledTelegramAccounts cfg
               ∧ Telegram.tokenSource account ≠ "none".
Proof.
  rewrite positive_length_exists. split; intros [a Ha]; exists a.
  - apply elem_of_filter_bool in Ha. by rewrite <- differs_from_none.
  - apply elem_of_filter_bool. by rewrite differs_from_none.
Qed.

(** X7.  Telegram on its own contributes "react" and nothing else: without
    Discord and Slack accounts, a WhatsApp section and MS Teams, the catalog
    is ["send"; "react"] when an enabled Telegram account with a token exists
    and the "reactions" gate grants, and ["send"] otherwise. *)
Theorem telegram_only_catalog (cfg : ClawdbotConfig) :
  listEnabledDiscordAccounts cfg = [] →
  listEnabledSlackAccounts cfg = [] →
  whatsapp cfg = None →
  msteams cfg = None →
  (buildMessageActionList cfg = ["send"] ∨ buildMessageActionList cfg = ["send"; "react"])
  ∧ ("react" ∈ buildMessageActionList cfg
     ↔ (∃ account, account ∈ listEnabledTelegramAccounts cfg
                   ∧ Telegram.tokenSource account ≠ "none")
       ∧ createActionGate (telegram cfg ≫= Telegram.actions) "reactions" true = true).
Proof.
  intros Hd Hs Hw Hm. rewrite <- telegramEnabled_iff, <- andb_true_iff.
  unfold buildMessageActionList. rewrite Hd, Hs, Hw, Hm. cbv zeta.
  remember ((0 <? List.length
                    (List.filter
                       (fun account => negb (Telegram.tokenSource account =? "none")%string)
                       (listEnabledTelegramAccounts cfg)))%nat
            && createActionGate (telegram cfg ≫= Telegram.actions) "reactions" true)
    as granted eqn:Eg.
  clear Eg. cbn. rewrite andb_false_r, orb_false_r.
  destruct granted; unfold when, Set_add; cbn.
  - split; [by right|]. split; [done|]. intros _.
    apply list_elem_of_In. cbn. tauto.
  - split; [by left|]. split; [|done]. intros Hin.
    by apply list_elem_of_singleton in Hin.
Qed.

Lemma telegram_only_catalog_witness :
  listEnabledDiscordAccounts (telegramConfig None) = []
  ∧ listEnabledSlackAccounts (telegramConfig None) = []
  ∧ "react" ∈ buildMessageActionList (telegramConfig None).
Proof.
  split; [reflexivity|]. split; [reflexivity|].
  refine (proj2 (proj2 (telegram_only_catalog (telegramConfig None) _ _ _ _)) _);
    try reflexivity.
  split; [|reflexivity]. eexists. split; [by left | done].
Defined.

Lemma whatsapp_condition (cfg : ClawdbotConfig) (key : string) :
  match whatsapp cfg with
  | Some _ => createActionGate (whatsapp cfg ≫= WhatsApp.actions) key true
  | None => false
  end = true → providerConfigured cfg "whatsapp".
Proof.
  intros Hw. do 3 right. split; [done|]. by destruct (whatsapp cfg).
Qed.

(** X4.  Every action of the catalog that the router serves for a fixed set
    of providers has one of those providers behind it in the configuration:
    the catalog never offers an action that would be refused for every
    configured provider. *)
Theorem catalog_action_is_served (cfg : ClawdbotConfig) (name : string)
    (providers : list string) :
  name ∈ buildMessageActionList cfg →
  allowedProviders name = Some providers →
  ∃ p, p ∈ providers ∧ providerConfigured cfg p.
Proof.
  intros Hin Hallowed.
  assert (Hknown : name ∈ AllMessageActions).
  { destruct (catalog_invariant cfg) as (_ & Hall & _).
    by eapply Forall_forall in Hall. }
  apply includes_true in Hin. revert Hin. unfold AllMessageActions in Hknown.
  assert (Hdiscord : (∃ account, account ∈ listEnabledDiscordAccounts cfg
                       ∧ Discord.tokenSource account ≠ "none")
                     → providerConfigured cfg "discord").
  { intros ?. by left. }
  assert (Htelegram : (∃ account, account ∈ listEnabledTelegramAccounts cfg
                       ∧ Telegram.tokenSource account ≠ "none")
                      → providerConfigured cfg "telegram").
  { intros ?. right. right. left. done. }
  repeat (apply elem_of_cons in Hknown as [->|Hknown]);
    [..|by apply not_elem_of_nil in Hknown];
    try discriminate Hallowed;
    injection Hallowed as <-;
    catalog_membership; read_conditions; rewrite ?telegramEnabled_iff;
    intros Hcond.
  all: repeat match goal with
              | Hor : _ ∨ _ |- _ => destruct Hor as [Hor|Hor]
              end.
  all: first
         [ exists "discord"; split; [apply list_elem_of_In; cbn; tauto|];
           apply Hdiscord; tauto
         | exists "slack"; split; [apply list_elem_of_In; cbn; tauto|];
           eapply slackGrants_configured; eassumption
         | exists "telegram"; split; [apply list_elem_of_In; cbn; tauto|];
           apply Htelegram; tauto
         | exists "whatsapp"; split; [apply list_elem_of_In; cbn; tauto|];
           eapply whatsapp_condition; eassumption ].
Qed.

Lemma catalog_action_is_served_witness :
  "role-add" ∈ buildMessageActionList (discordConfig (Some {[ "roles" := true ]}))
  ∧ allowedProviders "role-add" = Some ["discord"]
  ∧ ∃ p, p ∈ ["discord"]
         ∧ providerConfigured (discordConfig (Some {[ "roles" := true ]})) p.
Proof.
  assert (H : "role-add"
              ∈ buildMessageActionList (discordConfig (Some {[ "roles" := true ]}))).
  { apply includes_true. by vm_compute. }
  split; [exact H|]. split; [reflexivity|].
  exact (catalog_action_is_served _ "role-add" ["discord"] H eq_refl).
Defined.

(** ** One call, one collaborator *)

Section Routing.
Context `{Collaborators}.
Variable options : option MessageToolOptions.
Variable L : Locals.

Lemma dispatches_extractions (t : list Event) :
  Forall (fun e => isExtraction e = true) t → dispatches t = [].
Proof.
  induction 1 as [|e t He _ IH]; [done|]. unfold dispatches in *. cbn.
  by destruct e.
Qed.

(** Extractions in front of a branch do not change its shape. *)
Lemma single_after_extractions {A} (m : M A) (k : A → M value) :
  trace m ≠ [] →
  Forall (fun e => isExtraction e = true) (trace m) →
  (∀ a, singleDispatch options L (k a)) →
  singleDispatch options L (bind m k).
Proof.
  destruct m as [t [err|a]]; cbn [trace outcome fst snd]; intros Hne Hex Hk.
  - unfold singleDispatch. cbn. fold (dispatches t).
    rewrite (dispatches_extractions _ Hex). split; [done|]. eauto.
  - specialize (Hk a). unfold singleDispatch in *. cbn [bind].
    destruct (k a) as [t' r]. cbn [trace outcome fst snd] in *.
    rewrite dispatches_app, (dispatches_extractions _ Hex). cbn [app].
    destruct (dispatches t') as [|e [|]]; [| |done].
    + destruct Hk as (Hex' & err & -> & _). split; [by apply Forall_app|].
      exists err. split; [done|]. intros Hnil. by apply app_eq_nil in Hnil as [? _].
    + destruct Hk as (Hlast & Hrouted & Hanswer). split; [|done].
      rewrite last_app, Hlast. done.
Qed.

Lemma single_readString (key : string) (opts : StringParamOptions)
    (k : option string → M value) :
  (∀ v, singleDispatch options L (k v)) →
  singleDispatch options L (bind (readString (params L) key opts) k).
Proof. intros. apply single_after_extractions; [done | by repeat constructor | done]. Qed.

Lemma single_readNumber (key : string) (opts : NumberParamOptions)
    (k : option Z → M value) :
  (∀ v, singleDispatch options L (k v)) →
  singleDispatch options L (bind (readNumber (params L) key opts) k).
Proof. intros. apply single_after_extractions; [done | by repeat constructor | done]. Qed.

Lemma single_readStringArray (key : string) (opts : StringArrayParamOptions)
    (k : option (list string) → M value) :
  (∀ v, singleDispatch options L (k v)) →
  singleDispatch options L (bind (readStringArray (params L) key opts) k).
Proof. intros. apply single_after_extractions; [done | by repeat constructor | done]. Qed.

Lemma resolveChannelId_extractions (label : string) :
  trace (resolveChannelId L label) ≠ []
  ∧ Forall (fun e => isExtraction e = true) (trace (resolveChannelId L label)).
Proof.
  unfold resolveChannelId, readString, call, bind, ret.
  destruct (readStringParam (params L) label optional) as [?|[?|]]; cbn;
    split; try done; by repeat constructor.
Qed.

Lemma single_resolveChannelId (label : string) (k : option string → M value) :
  (∀ v, singleDispatch options L (k v)) →
  singleDispatch options L (bind (resolveChannelId L label) k).
Proof.
  intros. destruct (resolveChannelId_extractions label).
  by apply single_after_extractions.
Qed.

Lemma single_resolveChatId (label : string) (k : option string → M value) :
  (∀ v, singleDispatch options L (k v)) →
  singleDispatch options L (bind (resolveChatId L label) k).
Proof. apply single_resolveChannelId. Qed.

Lemma single_ret {A} (a : A) (k : A → M value) :
  singleDispatch options L (k a) → singleDispatch options L (bind (ret a) k).
Proof. unfold bind, ret. by destruct (k a). Qed.

Lemma single_throw (message : string) :
  singleDispatch options L (throw (UnsupportedActionForProvider message)).
Proof. unfold singleDispatch. cbn. split; [done|]. eauto. Qed.

Lemma single_handler (e : Event) (answer : Error + value) :
  isProviderHandler e = true →
  routedTo options L e →
  answerOf (cfg L) e = Some answer →
  singleDispatch options L (call e answer).
Proof.
  intros He Hrouted Hanswer. unfold singleDispatch, dispatches. cbn.
  by rewrite He.
Qed.

Lemma single_sendMessage (args : MessageSend.Params) :
  routedTo options L (SendMessage args) →
  singleDispatch options L
    (bind (call (SendMessage args) (sendMessage args))
          (fun result => ret (jsonResult result))).
Proof.
  intros Hrouted. unfold singleDispatch, call, bind, ret, answerOf, wrapped.
  destruct (sendMessage args) eqn:E; cbn; rewrite E;
    (split; [done|]); (split; [exact Hrouted|done]).
Qed.

Lemma single_sendPoll (args : MessagePoll.Params) :
  routedTo options L (SendPoll args) →
  singleDispatch options L
    (bind (call (SendPoll args) (sendPoll args))
          (fun result => ret (jsonResult result))).
Proof.
  intros Hrouted. unfold singleDispatch, call, bind, ret, answerOf, wrapped.
  destruct (sendPoll args) eqn:E; cbn; rewrite E;
    (split; [done|]); (split; [exact Hrouted|done]).
Qed.

(** What is known of the tests decided so far settles the side conditions
    of a call. *)
Ltac use_tests :=
  cbn;
  repeat match goal with
         | E : ?b = true |- context [?b] => rewrite E
         | E : ?b = false |- context [?b] => rewrite E
         end;
  cbn; repeat split; done.

Ltac route :=
  cbv zeta;
  repeat first
    [ apply single_readString; intros ?
    | apply single_readNumber; intros ?
    | apply single_readStringArray; intros ?
    | apply single_resolveChannelId; intros ?
    | apply single_resolveChatId; intros ?
    | apply single_ret
    | apply single_throw
    | apply single_sendMessage; use_tests
    | apply single_sendPoll; use_tests
    | apply single_handler; [reflexivity | use_tests | reflexivity]
    | match goal with
      | |- singleDispatch _ _ (if negb ?c then _ else _) =>
          destruct c eqn:?; cbn [negb]
      | |- singleDispatch _ _ (if ?c then _ else _) => destruct c eqn:?
      | |- singleDispatch _ _ (bind (if ?c then _ else _) _) => destruct c eqn:?
      end ].

Lemma sendBranch_single :
  actionIs (action L) "send" = true →
  singleDispatch options L (sendBranch options L).
Proof.
  intros ?.
  unfold sendBranch, discordAction, slackAction, telegramAction, whatsAppAction,
    onlyDiscord.
  route.
Qed.

Lemma pollBranch_single :
  actionIs (action L) "poll" = true →
  singleDispatch options L (pollBranch L).
Proof.
  intros ?.
  unfold pollBranch, discordAction, slackAction, telegramAction, whatsAppAction,
    onlyDiscord.
  route.
Qed.

Lemma reactBranch_single :
  actionIs (action L) "send" = false →
  actionIs (action L) "react" = true →
  singleDispatch options L (reactBranch L).
Proof.
  intros ? ?.
  unfold reactBranch, discordAction, slackAction, telegramAction, whatsAppAction,
    onlyDiscord.
  route.
Qed.

Lemma reactionsBranch_single :
  actionIs (action L) "send" = false →
  singleDispatch options L (reactionsBranch L).
Proof.
  intros ?.
  unfold reactionsBranch, discordAction, slackAction, telegramAction, whatsAppAction,
    onlyDiscord.
  route.
Qed.

Lemma readBranch_single :
  actionIs (action L) "send" = false →
  singleDispatch options L (readBranch L).
Proof.
  intros ?.
  unfold readBranch, discordAction, slackAction, telegramAction, whatsAppAction,
    onlyDiscord.
  route.
Qed.

Lemma editBranch_single :
  actionIs (action L) "send" = false →
  singleDispatch options L (editBranch L).
Proof.
  intros ?.
  unfold editBranch, discordAction, slackAction, telegramAction, whatsAppAction,
    onlyDiscord.
  route.
Qed.

Lemma deleteBranch_single :
  actionIs (action L) "send" = false →
  singleDispatch options L (deleteBranch L).
Proof.
  intros ?.
  unfold deleteBranch, discordAction, slackAction, telegramAction, whatsAppAction,
    onlyDiscord.
  route.
Qed.

Lemma pinsBranch_single :
  actionIs (action L) "send" = false →
  singleDispatch options L (pinsBranch L).
Proof.
  intros ?.
  unfold pinsBranch, discordAction, slackAction, telegramAction, whatsAppAction,
    onlyDiscord.
  route.
Qed.

Lemma permissionsBranch_single :
  singleDispatch options L (permissionsBranch L).
Proof.
  unfold permissionsBranch, discordAction, slackAction, telegramAction, whatsAppAction,
    onlyDiscord.
  route.
Qed.

Lemma threadCreateBranch_single :
  singleDispatch options L (threadCreateBranch L).
Proof.
  unfold threadCreateBranch, discordAction, slackAction, telegramAction, whatsAppAction,
    onlyDiscord.
  route.
Qed.

Lemma threadListBranch_single :
  singleDispatch options L (threadListBranch L).
Proof.
  unfold threadListBranch, discordAction, slackAction, telegramAction, whatsAppAction,
    onlyDiscord.
  route.
Qed.

Lemma threadReplyBranch_single :
  singleDispatch options L (threadReplyBranch L).
Proof.
  unfold threadReplyBranch, discordAction, slackAction, telegramAction, whatsAppAction,
    onlyDiscord.
  route.
Qed.

Lemma searchBranch_single :
  singleDispatch options L (searchBranch L).
Proof.
  unfold searchBranch, discordAction, slackAction, telegramAction, whatsAppAction,
    onlyDiscord.
  route.
Qed.

Lemma stickerBranch_single :
  singleDispatch options L (stickerBranch L).
Proof.
  unfold stickerBranch, discordAction, slackAction, telegramAction, whatsAppAction,
    onlyDiscord.
  route.
Qed.

Lemma memberInfoBranch_single :
  actionIs (action L) "send" = false →
  singleDispatch options L (memberInfoBranch L).
Proof.
  intros ?.
  unfold memberInfoBranch, discordAction, slackAction, telegramAction, whatsAppAction,
    onlyDiscord.
  route.
Qed.

Lemma roleInfoBranch_single :
  singleDispatch options L (roleInfoBranch L).
Proof.
  unfold roleInfoBranch, discordAction, slackAction, telegramAction, whatsAppAction,
    onlyDiscord.
  route.
Qed.

Lemma emojiListBranch_single :
  actionIs (action L) "send" = false →
  singleDispatch options L (emojiListBranch L).
Proof.
  intros ?.
  unfold emojiListBranch, discordAction, slackAction, telegramAction, whatsAppAction,
    onlyDiscord.
  route.
Qed.

Lemma emojiUploadBranch_single :
  singleDispatch options L (emojiUploadBranch L).
Proof.
  unfold emojiUploadBranch, discordAction, slackAction, telegramAction, whatsAppAction,
    onlyDiscord.
  route.
Qed.

Lemma stickerUploadBranch_single :
  singleDispatch options L (stickerUploadBranch L).
Proof.
  unfold stickerUploadBranch, discordAction, slackAction, telegramAction, whatsAppAction,
    onlyDiscord.
  route.
Qed.

Lemma roleChangeBranch_single :
  singleDispatch options L (roleChangeBranch L).
Proof.
  unfold roleChangeBranch, discordAction, slackAction, telegramAction, whatsAppAction,
    onlyDiscord.
  route.
Qed.

Lemma channelInfoBranch_single :
  singleDispatch options L (channelInfoBranch L).
Proof.
  unfold channelInfoBranch, discordAction, slackAction, telegramAction, whatsAppAction,
    onlyDiscord.
  route.
Qed.

Lemma channelListBranch_single :
  singleDispatch options L (channelListBranch L).
Proof.
  unfold channelListBranch, discordAction, slackAction, telegramAction, whatsAppAction,
    onlyDiscord.
  route.
Qed.

Lemma voiceStatusBranch_single :
  singleDispatch options L (voiceStatusBranch L).
Proof.
  unfold voiceStatusBranch, discordAction, slackAction, telegramAction, whatsAppAction,
    onlyDiscord.
  route.
Qed.

Lemma eventListBranch_single :
  singleDispatch options L (eventListBranch L).
Proof.
  unfold eventListBranch, discordAction, slackAction, telegramAction, whatsAppAction,
    onlyDiscord.
  route.
Qed.

Lemma eventCreateBranch_single :
  singleDispatch options L (eventCreateBranch L).
Proof.
  unfold eventCreateBranch, discordAction, slackAction, telegramAction, whatsAppAction,
    onlyDiscord.
  route.
Qed.

Lemma moderationBranch_single :
  singleDispatch options L (moderationBranch L).
Proof.
  unfold moderationBranch, discordAction, slackAction, telegramAction, whatsAppAction,
    onlyDiscord.
  route.
Qed.

(** The chain of tests on the action name ends in a branch, or in the
    unknown-action failure when no known name matches. *)
Lemma dispatch_single :
  singleDispatch options L (dispatch options L)
  ∨ (Forall (fun known => actionIs (action L) known = false) AllMessageActions
     ∧ dispatch options L
       = ([], inl (UnknownAction ("Unknown action: " +:+ templateText (action L))))).
Proof.
  unfold dispatch. cbv zeta.
  repeat match goal with
         | |- singleDispatch _ _ (if ?c then _ else _) ∨ _ =>
             match c with
             | context [actionIs ?a ?s] => destruct (actionIs a s) eqn:?; cbn [orb]
             end
         end.
  all: try (left;
            first [ apply sendBranch_single | apply pollBranch_single
                  | apply reactBranch_single | apply reactionsBranch_single
                  | apply readBranch_single | apply editBranch_single
                  | apply deleteBranch_single | apply pinsBranch_single
                  | apply permissionsBranch_single | apply threadCreateBranch_single
                  | apply threadListBranch_single | apply threadReplyBranch_single
                  | apply searchBranch_single | apply stickerBranch_single
                  | apply memberInfoBranch_single | apply roleInfoBranch_single
                  | apply emojiListBranch_single | apply emojiUploadBranch_single
                  | apply stickerUploadBranch_single | apply roleChangeBranch_single
                  | apply channelInfoBranch_single | apply channelListBranch_single
                  | apply voiceStatusBranch_single | apply eventListBranch_single
                  | apply eventCreateBranch_single | apply moderationBranch_single ];
            assumption).
  right. split; [|done]. unfold AllMessageActions.
  repeat (apply List.Forall_cons; [assumption|]). apply List.Forall_nil.
Qed.
End Routing.

Section RoutingResults.
Context `{Collaborators}.
Variable options : option MessageToolOptions.

(** The locals that the prelude takes from the tool options. *)
Lemma prelude_locals (args : gmap string value) (tr0 : list Event) (L : Locals) :
  prelude options args = (tr0, inr L) →
  cfg L = default loadConfig (options ≫= config)
  ∧ ∃ explicit,
      readStringParam args "accountId" optional = inr explicit
      ∧ accountId L
        = match explicit with
          | Some _ => explicit
          | None => resolveAgentAccountId (options ≫= agentAccountId)
          end.
Proof.
  unfold prelude, readString, readNumber, call, bind. cbv zeta.
  destruct (readStringParam args "action" requiredParam) as [?|a]; [done|].
  destruct (readStringParam args "provider" optional) as [?|p]; [done|].
  destruct (resolveMessageProviderSelection _ p) as [?|s]; [done|].
  destruct (readStringParam args "accountId" optional) as [?|explicit]; [done|].
  destruct (readStringParam args "gatewayUrl" untrimmed) as [?|?]; [done|].
  destruct (readStringParam args "gatewayToken" untrimmed) as [?|?]; [done|].
  destruct (readNumberParam args "timeoutMs" _) as [?|?]; [done|].
  cbn. intros [= <- <-]. cbn. split; [done|]. by exists explicit.
Qed.

Lemma elem_of_dispatches (e : Event) (t : list Event) :
  e ∈ t → isProviderHandler e || isGenericSend e = true → e ∈ dispatches t.
Proof. intros. unfold dispatches. by apply elem_of_filter_bool. Qed.

(** A call to a sender or handler found in the trace of [execute] is the
    single one, comes last, was made for the locals of a prelude that came
    through, and its answer is the outcome. *)
Lemma execute_dispatch_event (args : gmap string value) (e : Event) :
  e ∈ trace (execute options args) →
  isProviderHandler e || isGenericSend e = true →
  ∃ tr0 L,
    prelude options args = (tr0, inr L)
    ∧ dispatches (trace (execute options args)) = [e]
    ∧ last (trace (execute options args)) = Some e
    ∧ routedTo options L e
    ∧ answerOf (cfg L) e = Some (outcome (execute options args)).
Proof.
  intros Hin He. apply elem_of_dispatches in Hin; [|done].
  pose proof (prelude_dispatches options args) as H0.
  destruct (prelude options args) as [tr0 [err|L]] eqn:Hp.
  - unfold execute in Hin. rewrite Hp in Hin.
    change (dispatches tr0 = []) in H0. cbn in Hin. fold (dispatches tr0) in Hin.
    rewrite H0 in Hin. by apply not_elem_of_nil in Hin.
  - change (dispatches tr0 = []) in H0.
    exists tr0, L. split; [done|].
    rewrite (execute_after_prelude _ _ _ _ Hp) in *.
    cbn [trace outcome fst snd] in *.
    rewrite dispatches_app, H0 in *. cbn [app] in *.
    destruct (dispatch_single options L) as [Hs | [_ Hu]].
    + unfold singleDispatch in Hs.
      destruct (dispatches (trace (dispatch options L))) as [|e' [|]]; [| |done].
      * by apply not_elem_of_nil in Hin.
      * apply list_elem_of_singleton in Hin as ->.
        destruct Hs as (Hlast & Hrouted & Hanswer). split; [done|].
        split; [|done]. by rewrite last_app, Hlast.
    + rewrite Hu in Hin. by apply not_elem_of_nil in Hin.
Qed.

(** X8.  Whatever the request, [execute] calls a sender or handler at most
    once, nothing happens after that call, and a request that succeeds has
    made it: the router neither retries nor answers on its own. *)
Theorem execute_dispatches_once (args : gmap string value) :
  (List.length (dispatches (trace (execute options args))) ≤ 1)%nat
  ∧ (∀ e, e ∈ dispatches (trace (execute options args)) →
          last (trace (execute options args)) = Some e)
  ∧ (∀ v, outcome (execute options args) = inr v →
          dispatches (trace (execute options args)) ≠ []).
Proof.
  pose proof (prelude_dispatches options args) as H0.
  destruct (prelude options args) as [tr0 [err|L]] eqn:Hp;
    change (dispatches tr0 = []) in H0.
  - unfold execute. rewrite Hp. cbn [bind trace outcome fst snd]. rewrite H0.
    split; [cbn; lia|]. split; [|done]. intros e He. by apply not_elem_of_nil in He.
  - rewrite (execute_after_prelude _ _ _ _ Hp). cbn [trace outcome fst snd].
    rewrite dispatches_app, H0. cbn [app].
    destruct (dispatch_single options L) as [Hs | [_ Hu]].
    + unfold singleDispatch in Hs.
      destruct (dispatches (trace (dispatch options L))) as [|e' [|]]; [| |done].
      * destruct Hs as (_ & err & Herr & _). split; [cbn; lia|].
        split; [intros e He; by apply not_elem_of_nil in He|].
        intros v Hv. congruence.
      * destruct Hs as (Hlast & _). split; [cbn; lia|]. split; [|done].
        intros e He. apply list_elem_of_singleton in He as ->.
        by rewrite last_app, Hlast.
    + rewrite Hu. cbn. split; [lia|]. split; [|done].
      intros e He. by apply not_elem_of_nil in He.
Qed.

(** X9.  The outcome of a call that reached a sender or handler is what
    that collaborator answered: a handler's answer as it is, a generic
    sender's result through [jsonResult], and a rejection of either
    unchanged. *)
Theorem execute_returns_collaborator_answer (args : gmap string value) (e : Event) :
  e ∈ trace (execute options args) →
  isProviderHandler e || isGenericSend e = true →
  answerOf (default loadConfig (options ≫= config)) e
  = Some (outcome (execute options args)).
Proof.
  intros Hin He.
  destruct (execute_dispatch_event args e Hin He)
    as (tr0 & L & Hp & _ & _ & _ & Hanswer).
  destruct (prelude_locals _ _ _ Hp) as [<- _]. done.
Qed.

(** X10.  A provider-specific handler is only ever called for the provider
    that was resolved for the request; the Telegram handler only by "send"
    and "react", the WhatsApp handler only by "react". *)
Theorem handler_of_resolved_provider (args : gmap string value)
    (tr0 : list Event) (L : Locals) (e : Event) (p : string) :
  prelude options args = (tr0, inr L) →
  e ∈ trace (execute options args) →
  handlerProvider e = Some p →
  resolvedProvider L = p
  ∧ (p = "telegram" → action L = Some "send" ∨ action L = Some "react")
  ∧ (p = "whatsapp" → action L = Some "react").
Proof.
  intros Hp Hin Hprov.
  assert (He : isProviderHandler e || isGenericSend e = true) by by destruct e.
  destruct (execute_dispatch_event args e Hin He)
    as (tr0' & L' & Hp' & _ & _ & Hrouted & _).
  rewrite Hp in Hp'. injection Hp' as <- <-.
  assert (Hname : ∀ name, actionIs (action L) name = true → action L = Some name).
  { intros name. unfold actionIs. destruct (action L) as [a|]; [|done].
    intros E. by apply String.eqb_eq in E as ->. }
  destruct e; try done; cbn in Hprov; injection Hprov as <-;
    destruct Hrouted as (Hprovider & Hrest); apply String.eqb_eq in Hprovider;
    (split; [done|]); split; try done; intros _.
  - destruct Hrest as [_ Hact]. apply orb_true_iff in Hact as [?|?]; auto.
  - destruct Hrest as [_ Hact]. auto.
Qed.

(** X11.  The account of the request (the explicit [accountId] parameter,
    or else the agent's account of the tool options) is part of every
    request handed to the Slack, Telegram and WhatsApp handlers; a request
    handed to the Discord handler never has an [accountId]. *)
Theorem account_reaches_handlers (args : gmap string value) (e : Event) :
  e ∈ trace (execute options args) →
  match e with
  | DiscordAction request => requestField request "accountId" = None
  | SlackAction request _ | TelegramAction request | WhatsAppAction request =>
      ∃ explicit,
        readStringParam args "accountId" optional = inr explicit
        ∧ requestField request "accountId"
          = Some (ofString
                    (match explicit with
                     | Some _ => explicit
                     | None => resolveAgentAccountId (options ≫= agentAccountId)
                     end))
  | _ => True
  end.
Proof.
  intros Hin.
  destruct (isProviderHandler e) eqn:He; [|by destruct e].
  destruct (execute_dispatch_event args e Hin) as (tr0 & L & Hp & _ & _ & Hrouted & _);
    [by rewrite He|].
  destruct (prelude_locals _ _ _ Hp) as (_ & explicit & Hread & Haccount).
  destruct e; try done; cbn in Hrouted.
  - by destruct Hrouted.
  - destruct Hrouted as (_ & Hfield & _). exists explicit. by rewrite <- Haccount.
  - destruct Hrouted as (_ & Hfield & _). exists explicit. by rewrite <- Haccount.
  - destruct Hrouted as (_ & Hfield & _). exists explicit. by rewrite <- Haccount.
Qed.

(** X12.  The auto-threading context of the tool options (current channel,
    current thread, reply mode, the has-replied cell) is handed to the Slack
    handler by "send" and by no other action. *)
Theorem slack_context_only_on_send (args : gmap string value)
    (request : value) (context : option SlackContext) :
  SlackAction request context ∈ trace (execute options args) →
  (readStringParam args "action" requiredParam = inr (Some "send")
   ∧ context = Some (slackContextOf options))
  ∨ (readStringParam args "action" requiredParam ≠ inr (Some "send")
     ∧ context = None).
Proof.
  intros Hin.
  destruct (execute_dispatch_event args _ Hin eq_refl)
    as (tr0 & L & Hp & _ & _ & Hrouted & _).
  destruct (prelude_ok _ _ _ _ Hp) as (? & ? & _ & Ha & _).
  destruct Hrouted as (_ & _ & Hctx). rewrite Ha.
  unfold actionIs in Hctx. destruct (action L) as [name|] eqn:Eaction; [|by right].
  destruct (String.eqb_spec name "send") as [Heq|Hne].
  - left. by rewrite Heq.
  - right. split; [|done]. intros [= ?]. done.
Qed.

(** X13.  [sendMessage] is only ever called by "send", with the gateway of
    the request, its dry-run flag and its account, and only on a dry run or
    for a provider other than discord, slack and telegram. *)
Theorem sendMessage_only_for_send (args : gmap string value)
    (tr0 : list Event) (L : Locals) (sent : MessageSend.Params) :
  prelude options args = (tr0, inr L) →
  SendMessage sent ∈ trace (execute options args) →
  action L = Some "send"
  ∧ MessageSend.gateway sent = gateway L
  ∧ MessageSend.dryRun sent = dryRun L
  ∧ MessageSend.accountId sent = accountId L
  ∧ (dryRun L = true ∨ resolvedProvider L ∉ ["discord"; "slack"; "telegram"]).
Proof.
  intros Hp Hin.
  destruct (execute_dispatch_event args _ Hin eq_refl)
    as (tr0' & L' & Hp' & _ & _ & Hrouted & _).
  rewrite Hp in Hp'. injection Hp' as <- <-.
  destruct Hrouted as (Ha & Hg & Hd & Hacc & _ & Hwhen).
  repeat split; try done.
  - unfold actionIs in Ha. destruct (action L) as [a|]; [|done].
    by apply String.eqb_eq in Ha as ->.
  - apply orb_true_iff in Hwhen as [?|Hout]; [by left | right].
    apply negb_true_iff in Hout. apply orb_false_iff in Hout as [Hout Et].
    apply orb_false_iff in Hout as [Ed Es].
    unfold providerIs in *. apply String.eqb_neq in Ed, Es, Et.
    intros Hmem. by repeat (apply elem_of_cons in Hmem as [?|Hmem]);
      [..|apply not_elem_of_nil in Hmem].
Qed.

(** X14.  [sendPoll] is only ever called by "poll", on a dry run or for a
    provider other than discord, with the resolved provider, the gateway and
    the dry-run flag of the request; the number of selections it allows is 1
    unless [pollMulti] is the boolean [true], and then the larger of 2 and
    the number of options. *)
Theorem sendPoll_only_for_poll (args : gmap string value)
    (tr0 : list Event) (L : Locals) (sent : MessagePoll.Params) :
  prelude options args = (tr0, inr L) →
  SendPoll sent ∈ trace (execute options args) →
  action L = Some "poll"
  ∧ MessagePoll.provider sent = resolvedProvider L
  ∧ MessagePoll.gateway sent = gateway L
  ∧ MessagePoll.dryRun sent = dryRun L
  ∧ (dryRun L = true ∨ resolvedProvider L ≠ "discord")
  ∧ (getProp args "pollMulti" = VBool true →
     MessagePoll.maxSelections sent = Nat.max 2 (List.length (MessagePoll.options sent)))
  ∧ (getProp args "pollMulti" ≠ VBool true → MessagePoll.maxSelections sent = 1).
Proof.
  intros Hp Hin.
  destruct (execute_dispatch_event args _ Hin eq_refl)
    as (tr0' & L' & Hp' & _ & _ & Hrouted & _).
  rewrite Hp in Hp'. injection Hp' as <- <-.
  destruct (prelude_ok _ _ _ _ Hp) as (? & ? & _ & _ & _ & _ & _ & Hparams & _).
  destruct Hrouted as (Ha & Hg & Hd & Hprov & Hmax & Hwhen).
  rewrite Hparams in Hmax.
  repeat split; try done.
  - unfold actionIs in Ha. destruct (action L) as [a|]; [|done].
    by apply String.eqb_eq in Ha as ->.
  - apply orb_true_iff in Hwhen as [?|Hout]; [by left | right].
    apply negb_true_iff in Hout. by apply String.eqb_neq in Hout.
  - intros Hmulti. by rewrite Hmax, Hmulti.
  - intros Hmulti. rewrite Hmax.
    destruct (getProp args "pollMulti") as [| |[]| | | |]; done.
Qed.

(** X15.  Every name of [AllMessageActions] has a branch: for a request
    whose prelude came through with a known action name, the call never
    ends in the unknown-action failure of the router (the failure with
    nothing done after the prelude). *)
Theorem known_action_has_branch (args : gmap string value)
    (tr0 : list Event) (L : Locals) (name message : string) :
  prelude options args = (tr0, inr L) →
  action L = Some name →
  name ∈ AllMessageActions →
  execute options args ≠ (tr0, inl (UnknownAction message)).
Proof.
  intros Hp Ha Hknown Hexec.
  rewrite (execute_after_prelude _ _ _ _ Hp) in Hexec.
  injection Hexec as Htrace Hout.
  assert (Hnil : trace (dispatch options L) = []).
  { apply (app_inv_head tr0). by rewrite app_nil_r. }
  destruct (dispatch_single options L) as [Hs | [Hnone _]].
  - unfold singleDispatch in Hs. rewrite Hnil in Hs. cbn in Hs.
    destruct Hs as (_ & err & Herr & Hunsupported).
    rewrite Hout in Herr. injection Herr as <-. by specialize (Hunsupported eq_refl).
  - eapply Forall_forall in Hnone; [|exact Hknown].
    unfold actionIs in Hnone. rewrite Ha in Hnone.
    by rewrite String.eqb_refl in Hnone.
Qed.
End RoutingResults.

(** ** The routing theorems on concrete requests *)

Example slack_send_trace :
  @execute testCollaborators threadedOptions slackSendArgs
  = ( preludeTrace (Some "slack")
      ++ [ Extract StringParam "to"; Extract StringParam "message";
           Extract StringParam "media"; Extract StringParam "replyTo";
           Extract StringParam "threadId";
           SlackAction
             (VObj [ ("action", VStr "sendMessage"); ("to", VStr "C123");
                     ("content", VStr "hello"); ("mediaUrl", VUndefined);
                     ("accountId", VStr "ops"); ("threadTs", VStr "1712.5") ])
             (Some (slackContextOf threadedOptions)) ],
      inr accepted ).
Proof. reflexivity. Qed.

Example whatsapp_poll_trace :
  @execute testCollaborators None whatsappPollArgs
  = ( preludeTrace (Some "whatsapp")
      ++ [ Extract StringParam "to"; Extract StringParam "pollQuestion";
           Extract StringArrayParam "pollOption";
           Extract NumberParam "pollDurationHours";
           SendPoll
             {| MessagePoll.to := Some "+15550100";
                MessagePoll.question := Some "Lunch?";
                MessagePoll.options := ["soup"; "salad"; "pasta"];
                MessagePoll.maxSelections := 3;
                MessagePoll.durationHours := None;
                MessagePoll.provider := "whatsapp";
                MessagePoll.dryRun := false;
                MessagePoll.gateway := agentGateway |} ],
      inr (VObj [("details", accepted)]) ).
Proof. reflexivity. Qed.

Ltac in_trace :=
  apply list_elem_of_In; vm_compute; repeat first [left; reflexivity | right].

Lemma execute_returns_collaborator_answer_witness :
  SlackAction
    (VObj [ ("action", VStr "readMessages"); ("channelId", VStr "C123");
            ("limit", VUndefined); ("before", VUndefined);
            ("after", VUndefined); ("accountId", VStr "team") ])
    None
  ∈ trace (@execute testCollaborators None slackReadArgs)
  ∧ Some (@handleSlackAction testCollaborators
            (VObj [ ("action", VStr "readMessages"); ("channelId", VStr "C123");
                    ("limit", VUndefined); ("before", VUndefined);
                    ("after", VUndefined); ("accountId", VStr "team") ])
            emptyConfig None)
    = Some (outcome (@execute testCollaborators None slackReadArgs)).
Proof.
  assert (Hin : SlackAction
    (VObj [ ("action", VStr "readMessages"); ("channelId", VStr "C123");
            ("limit", VUndefined); ("before", VUndefined);
            ("after", VUndefined); ("accountId", VStr "team") ])
    None ∈ trace (@execute testCollaborators None slackReadArgs)) by in_trace.
  split; [exact Hin|].
  exact (@execute_returns_collaborator_answer testCollaborators None
           slackReadArgs _ Hin eq_refl).
Defined.

Lemma handler_of_resolved_provider_witness :
  SlackAction
    (VObj [ ("action", VStr "readMessages"); ("channelId", VStr "C123");
            ("limit", VUndefined); ("before", VUndefined);
            ("after", VUndefined); ("accountId", VStr "team") ])
    None
  ∈ trace (@execute testCollaborators None slackReadArgs)
  ∧ ∃ tr0 L,
      @prelude testCollaborators None slackReadArgs = (tr0, inr L)
      ∧ resolvedProvider L = "slack".
Proof.
  assert (Hin : SlackAction
    (VObj [ ("action", VStr "readMessages"); ("channelId", VStr "C123");
            ("limit", VUndefined); ("before", VUndefined);
            ("after", VUndefined); ("accountId", VStr "team") ])
    None ∈ trace (@execute testCollaborators None slackReadArgs)) by in_trace.
  split; [exact Hin|].
  eexists _, _. split; [reflexivity|].
  exact (proj1 (@handler_of_resolved_provider testCollaborators None slackReadArgs
                  _ _ _ "slack" eq_refl Hin eq_refl)).
Defined.

Lemma account_reaches_handlers_witness :
  SlackAction
    (VObj [ ("action", VStr "sendMessage"); ("to", VStr "C123");
            ("content", VStr "hello"); ("mediaUrl", VUndefined);
            ("accountId", VStr "ops"); ("threadTs", VStr "1712.5") ])
    (Some (slackContextOf threadedOptions))
  ∈ trace (@execute testCollaborators threadedOptions slackSendArgs)
  ∧ ∃ explicit,
      @readStringParam testCollaborators slackSendArgs "accountId" optional
        = inr explicit
      ∧ Some (VStr "ops")
        = Some (ofString
                  (match explicit with
                   | Some _ => explicit
                   | None =>
                       @resolveAgentAccountId testCollaborators
                         (threadedOptions ≫= agentAccountId)
                   end)).
Proof.
  assert (Hin : SlackAction
    (VObj [ ("action", VStr "sendMessage"); ("to", VStr "C123");
            ("content", VStr "hello"); ("mediaUrl", VUndefined);
            ("accountId", VStr "ops"); ("threadTs", VStr "1712.5") ])
    (Some (slackContextOf threadedOptions))
    ∈ trace (@execute testCollaborators threadedOptions slackSendArgs)) by in_trace.
  split; [exact Hin|].
  exact (@account_reaches_handlers testCollaborators threadedOptions
           slackSendArgs _ Hin).
Defined.

Lemma slack_context_only_on_send_witness :
  SlackAction
    (VObj [ ("action", VStr "sendMessage"); ("to", VStr "C123");
            ("content", VStr "hello"); ("mediaUrl", VUndefined);
            ("accountId", VStr "ops"); ("threadTs", VStr "1712.5") ])
    (Some (slackContextOf threadedOptions))
  ∈ trace (@execute testCollaborators threadedOptions slackSendArgs)
  ∧ ((@readStringParam testCollaborators slackSendArgs "action" requiredParam
        = inr (Some "send")
      ∧ Some (slackContextOf threadedOptions) = Some (slackContextOf threadedOptions))
     ∨ (@readStringParam testCollaborators slackSendArgs "action" requiredParam
          ≠ inr (Some "send")
        ∧ Some (slackContextOf threadedOptions) = None)).
Proof.
  assert (Hin : SlackAction
    (VObj [ ("action", VStr "sendMessage"); ("to", VStr "C123");
            ("content", VStr "hello"); ("mediaUrl", VUndefined);
            ("accountId", VStr "ops"); ("threadTs", VStr "1712.5") ])
    (Some (slackContextOf threadedOptions))
    ∈ trace (@execute testCollaborators threadedOptions slackSendArgs)) by in_trace.
  split; [exact Hin|].
  exact (@slack_context_only_on_send testCollaborators threadedOptions
           slackSendArgs _ _ Hin).
Defined.

Lemma sendMessage_only_for_send_witness :
  SendMessage
    {| MessageSend.to := Some "+15550100";
       MessageSend.content := Some "hi";
       MessageSend.mediaUrl := Some "https://example.org/a.png";
       MessageSend.provider := Some "signal";
       MessageSend.accountId := None;
       MessageSend.gifPlayback := false;
       MessageSend.dryRun := false;
       MessageSend.bestEffort := None;
       MessageSend.gateway := agentGateway |}
  ∈ trace (@execute testCollaborators None sendOnSignalArgs)
  ∧ ∃ tr0 L,
      @prelude testCollaborators None sendOnSignalArgs = (tr0, inr L)
      ∧ action L = Some "send"
      ∧ (dryRun L = true ∨ resolvedProvider L ∉ ["discord"; "slack"; "telegram"]).
Proof.
  assert (Hin : SendMessage
    {| MessageSend.to := Some "+15550100";
       MessageSend.content := Some "hi";
       MessageSend.mediaUrl := Some "https://example.org/a.png";
       MessageSend.provider := Some "signal";
       MessageSend.accountId := None;
       MessageSend.gifPlayback := false;
       MessageSend.dryRun := false;
       MessageSend.bestEffort := None;
       MessageSend.gateway := agentGateway |}
    ∈ trace (@execute testCollaborators None sendOnSignalArgs)) by in_trace.
  split; [exact Hin|].
  eexists _, _. split; [reflexivity|].
  destruct (@sendMessage_only_for_send testCollaborators None sendOnSignalArgs
              _ _ _ eq_refl Hin) as (Haction & _ & _ & _ & Hwhen).
  exact (conj Haction Hwhen).
Defined.

Lemma sendPoll_only_for_poll_witness :
  SendPoll
    {| MessagePoll.to := Some "+15550100";
       MessagePoll.question := Some "Lunch?";
       MessagePoll.options := ["soup"; "salad"; "pasta"];
       MessagePoll.maxSelections := 3;
       MessagePoll.durationHours := None;
       MessagePoll.provider := "whatsapp";
       MessagePoll.dryRun := false;
       MessagePoll.gateway := agentGateway |}
  ∈ trace (@execute testCollaborators None whatsappPollArgs)
  ∧ getProp whatsappPollArgs "pollMulti" = VBool true
  ∧ 3 = Nat.max 2 (List.length ["soup"; "salad"; "pasta"]).
Proof.
  assert (Hin : SendPoll
    {| MessagePoll.to := Some "+15550100";
       MessagePoll.question := Some "Lunch?";
       MessagePoll.options := ["soup"; "salad"; "pasta"];
       MessagePoll.maxSelections := 3;
       MessagePoll.durationHours := None;
       MessagePoll.provider := "whatsapp";
       MessagePoll.dryRun := false;
       MessagePoll.gateway := agentGateway |}
    ∈ trace (@execute testCollaborators None whatsappPollArgs)) by in_trace.
  split; [exact Hin|]. split; [reflexivity|].
  pose proof (@sendPoll_only_for_poll testCollaborators None whatsappPollArgs
                _ _ _ eq_refl Hin) as (_ & _ & _ & _ & _ & Hmulti & _).
  exact (Hmulti eq_refl).
Defined.

Lemma known_action_has_branch_witness :
  "permissions" ∈ AllMessageActions
  ∧ @execute testCollaborators None permissionsOnSlackArgs
    ≠ (preludeTrace (Some "slack"), inl (UnknownAction "Unknown action: permissions")).
Proof.
  assert (Hknown : "permissions" ∈ AllMessageActions) by by apply includes_true.
  split; [exact Hknown|].
  exact (@known_action_has_branch testCollaborators None permissionsOnSlackArgs
           _ _ "permissions" _ eq_refl eq_refl Hknown).
Defined.
